(** * Honeybee_infORventPerArea Calculator: a shallow embedding

    The component turns an air flow rate (air changes per hour, or m3/s per
    m2 of exposed envelope) into a flow per m2 of exposed facade and a flow
    per m2 of floor, zone by zone, and collects the floor and the
    outdoor-exposed geometry of the zones.

    Conventions of the embedding.
    - Python numbers are idealised as exact numbers: areas, volumes, rates and
      pressures are real numbers ([R]); surface type codes are rationals
      ([Q], so that [int] can be run).  Rounding, overflow and underflow of
      binary64 are not modelled: a product, a quotient or a power is the
      exact real number where the code has its rounded value.  The
      properties are stated so as not to depend on that: on the outcome of
      these computations, on the signs and the order that rounding keeps,
      never on an identity that only exact arithmetic has.
    - A value that may be [None] is an [option].
    - [print] and [ghenv.Component.AddRuntimeMessage] are events appended to
      a log; Python exceptions are the [Raise] outcome of a small
      log-and-exception monad. *)

From Stdlib Require Import Reals Lra List String Ascii ZArith QArith Bool Lia.
Import ListNotations.

Local Open Scope R_scope.

(** ** Python values, exceptions and output events *)

Inductive exn : Type :=
| TypeError
| ZeroDivisionError
| ValueError
| IndexError.

Inductive result (A : Type) : Type :=
| Ok (a : A)
| Raise (e : exn).
Arguments Ok {A} a.
Arguments Raise {A} e.

(** [gh.GH_RuntimeMessageLevel]: the component only uses [Warning]. *)
Inductive GH_RuntimeMessageLevel : Type :=
| Warning.

(** What the component writes: [print msg], the per-zone line
    ['Zone "{}" has a total flow rate of {} m3/s'] (kept as its two
    arguments: the zone name and the flow that ['%.4f'] formats), and
    [ghenv.Component.AddRuntimeMessage(level, msg)]. *)
Inductive event : Type :=
| Print (msg : string)
| PrintFlowRate (zoneName : string) (flow : R)
| AddRuntimeMessage (level : GH_RuntimeMessageLevel) (msg : string).

Definition log := list event.

(** ** The monad: a log that only grows, and exceptions *)

Definition M (A : Type) : Type := log -> result A * log.

Definition ret {A} (a : A) : M A := fun w => (Ok a, w).

Definition bind {A B} (m : M A) (k : A -> M B) : M B :=
  fun w => match m w with
           | (Ok a, w') => k a w'
           | (Raise e, w') => (Raise e, w')
           end.

Definition raise {A} (e : exn) : M A := fun w => (Raise e, w).

Definition emit (ev : event) : M unit := fun w => (Ok tt, w ++ [ev]).

Definition lift {A} (r : result A) : M A := fun w => (r, w).

(** [try: m except: h], with a bare [except] that catches everything. *)
Definition try_except {A} (m : M A) (h : M A) : M A :=
  fun w => match m w with
           | (Ok a, w') => (Ok a, w')
           | (Raise _, w') => h w'
           end.

Declare Scope py_scope.
Delimit Scope py_scope with py.
Notation "x <- m ;; k" := (bind m (fun x => k))
  (at level 61, m at next level, right associativity) : py_scope.
Notation "m ;;; k" := (bind m (fun _ => k))
  (at level 61, right associativity) : py_scope.

(** [for x in xs: acc = body x acc], stopping at the first exception. *)
Fixpoint for_each {A S} (body : A -> S -> M S) (xs : list A) (acc : S) : M S :=
  match xs with
  | [] => ret acc
  | x :: rest => bind (body x acc) (for_each body rest)
  end.

(** ** Arithmetic of Python numbers *)

Definition Reqb (x y : R) : bool := if Req_dec_T x y then true else false.
Definition Rlt_bool (x y : R) : bool := if Rlt_dec x y then true else false.

(** [a * b]: a [TypeError] when an operand is [None]. *)
Definition py_mul (a b : option R) : result R :=
  match a, b with
  | Some x, Some y => Ok (x * y)
  | _, _ => Raise TypeError
  end.

(** [a / b] on floats: [ZeroDivisionError] when the divisor is zero,
    [TypeError] when an operand is [None].  The quotient is the exact one;
    the code has it rounded. *)
Definition py_div (a b : option R) : result R :=
  match a, b with
  | Some x, Some y => if Reqb y 0 then Raise ZeroDivisionError else Ok (x / y)
  | _, _ => Raise TypeError
  end.

(** [math.pow(x, y)].  A negative base with an exponent that is not an
    integer is a [ValueError] (math domain error), and so is a zero base with
    a negative exponent.  The power of a positive base is the exact one; the
    code has it rounded. *)
Definition is_integer (y : R) : bool := Reqb y (IZR (Int_part y)).

Definition math_pow (x y : R) : result R :=
  if Rlt_bool 0 x then Ok (Rpower x y)
  else if Reqb x 0 then
    (if Reqb y 0 then Ok 1
     else if Rlt_bool 0 y then Ok 0
     else Raise ValueError)
  else
    (if is_integer y then Ok (powerRZ x (Int_part y))
     else Raise ValueError).

(** [int(q)]: truncation towards zero. *)
Definition py_int (q : Q) : Z := Z.quot (Qnum q) (Zpos (Qden q)).

(** [a < 0] in Python 2, where [None] is smaller than every number. *)
Definition py_lt0 (a : option R) : bool :=
  match a with
  | None => true
  | Some x => Rlt_bool x 0
  end.

(** Truth value of a number or [None]. *)
Definition truthy (a : option R) : bool :=
  match a with
  | None => false
  | Some x => negb (Reqb x 0)
  end.

(** ** Strings: [str.lower] *)

Definition is_upper (c : ascii) : bool :=
  let n := nat_of_ascii c in (65 <=? n)%nat && (n <=? 90)%nat.

Definition lower_ascii (c : ascii) : ascii :=
  if is_upper c then ascii_of_nat (nat_of_ascii c + 32) else c.

Fixpoint lower (s : string) : string :=
  match s with
  | EmptyString => EmptyString
  | String c rest => String (lower_ascii c) (lower rest)
  end.

(** Sequencing of computations that only raise (no output). *)
Definition rbind {A B} (r : result A) (k : A -> result B) : result B :=
  match r with
  | Ok a => k a
  | Raise e => Raise e
  end.

(** ** Data model of the host: zones, surfaces, the hive *)

Section Component.

Context {Geometry : Type} {HBObject : Type}.

(** A Honeybee surface: [srf.type] (2 floors, 2.5 ground floors, 2.75
    exposed floors, ...), [srf.BC] and [srf.geometry]. *)
Record HBSurface : Type := {
  type : Q;
  BC : string;
  geometry : Geometry
}.

(** A Honeybee zone, with the values its accessors return.  The exposed
    and the floor area may be absent ([None]). *)
Record HBZone : Type := {
  name : string;
  getExposedArea : option R;
  getFloorArea : option R;
  getZoneVolume : R;
  surfaces : list HBSurface
}.

(** The hive resolves the objects on the canvas to zones; it is supplied by
    the host and taken as given. *)
Record hb_Hive : Type := {
  visualizeFromHoneybeeHive : list (option HBObject) -> list HBZone
}.

(** The four lists that [main] fills and returns. *)
Record Outputs : Type := {
  infPerAreaFacade : list R;
  ventPerAreaFloor : list R;
  allExposed : list Geometry;
  allFloors : list Geometry
}.

(** The inputs of the component. *)
Record Inputs : Type := {
  _HBZones : list (option HBObject);
  _airFlowRate : option R;
  _ACHorM3sM2_ : option bool;
  _blowerPressure_ : option R
}.

(** ** checkInputs *)

Definition msg_airChangeHour : string :=
  "Give a value for airChangeHour bigger than 0.".

(** [if _ACHorM3sM2_ == None: unit = True / else: unit = _ACHorM3sM2_] *)
Definition effectiveUnit (flag : option bool) : bool :=
  match flag with
  | None => true
  | Some b => b
  end.

Definition checkInputs (inp : Inputs) : M (bool * bool) :=
  (checkData <- (if py_lt0 (_airFlowRate inp)
                 then emit (Print msg_airChangeHour) ;;;
                      emit (AddRuntimeMessage Warning msg_airChangeHour) ;;;
                      ret false
                 else ret true) ;;
   checkData <- (match _HBZones inp with
                 | [] => raise IndexError
                 | None :: _ => ret false
                 | Some _ :: _ => ret checkData
                 end) ;;
   ret (checkData, effectiveUnit (_ACHorM3sM2_ inp)))%py.

(** ** main *)

Definition nl : string := String (ascii_of_nat 10) EmptyString.

Definition warning_facade : string :=
  ("One of the HBZones did not have any esposed surface area." ++ nl ++
   "A value of 0 will be output for infPerAreaFacade.")%string.

Definition warning_floor : string :=
  ("One of the HBZones did not have any floor area." ++ nl ++
   "A value of 0 will be output for ventPerAreaFloor.")%string.

(** Lines 92-96: the flow rate in m3/s before any pressure conversion. *)
Definition baseFlowRate (unit : bool) (airFlowRate : option R) (HZone : HBZone)
  : result R :=
  if unit
  then rbind (py_mul airFlowRate (Some (getZoneVolume HZone)))
             (fun x => Ok (x / 3600))
  else py_mul airFlowRate (getExposedArea HZone).

(** Lines 99-100: the conversion from the blower pressure to 4 Pa.  The
    quotient [p / 4] is exact here.  In binary64 it is 0.0 for a pressure
    that is not 0 but below 2e-323 in magnitude; [math.pow] then returns 0.0
    and the division of line 100 raises a [ZeroDivisionError], an outcome
    that this definition does not have. *)
Definition pressureConverted (blowerPressure : option R) (standardFlowRate : R)
  : result R :=
  match blowerPressure with
  | Some p =>
      if negb (Reqb p 0)
      then rbind (math_pow (p / 4) (63 / 100))
                 (fun d => py_div (Some standardFlowRate) (Some d))
      else Ok standardFlowRate
  | None => Ok standardFlowRate
  end.

(** The flow rate of a zone as the two divisions use it. *)
Definition standardFlowRate (blowerPressure : option R) (unit : bool)
  (airFlowRate : option R) (HZone : HBZone) : result R :=
  rbind (baseFlowRate unit airFlowRate HZone) (pressureConverted blowerPressure).

Definition set_infPerAreaFacade (o : Outputs) (l : list R) : Outputs :=
  {| infPerAreaFacade := l; ventPerAreaFloor := ventPerAreaFloor o;
     allExposed := allExposed o; allFloors := allFloors o |}.
Definition set_ventPerAreaFloor (o : Outputs) (l : list R) : Outputs :=
  {| infPerAreaFacade := infPerAreaFacade o; ventPerAreaFloor := l;
     allExposed := allExposed o; allFloors := allFloors o |}.
Definition set_allExposed (o : Outputs) (l : list Geometry) : Outputs :=
  {| infPerAreaFacade := infPerAreaFacade o; ventPerAreaFloor := ventPerAreaFloor o;
     allExposed := l; allFloors := allFloors o |}.
Definition set_allFloors (o : Outputs) (l : list Geometry) : Outputs :=
  {| infPerAreaFacade := infPerAreaFacade o; ventPerAreaFloor := ventPerAreaFloor o;
     allExposed := allExposed o; allFloors := l |}.

(** Lines 107-115. *)
Definition appendFacade (flow : R) (zoneSrfArea : option R) (o : Outputs)
  : M Outputs :=
  try_except
    (x <- lift (py_div (Some flow) zoneSrfArea) ;;
     ret (set_infPerAreaFacade o (infPerAreaFacade o ++ [x])))%py
    (emit (Print warning_facade) ;;;
     emit (AddRuntimeMessage Warning warning_facade) ;;;
     ret (set_infPerAreaFacade o (infPerAreaFacade o ++ [0])))%py.

(** Lines 118-126. *)
Definition appendFloor (flow : R) (flrArea : option R) (o : Outputs)
  : M Outputs :=
  try_except
    (x <- lift (py_div (Some flow) flrArea) ;;
     ret (set_ventPerAreaFloor o (ventPerAreaFloor o ++ [x])))%py
    (emit (Print warning_floor) ;;;
     emit (AddRuntimeMessage Warning warning_floor) ;;;
     ret (set_ventPerAreaFloor o (ventPerAreaFloor o ++ [0])))%py.

(** Lines 129-132: [if int(srf.type) == 2: allFloors.append(srf.geometry)]. *)
Definition isFloor (srf : HBSurface) : bool := (py_int (type srf) =? 2)%Z.

Definition collectFloors (srfs : list HBSurface) (o : Outputs) : Outputs :=
  fold_left (fun o srf =>
               if isFloor srf
               then set_allFloors o (allFloors o ++ [geometry srf])
               else o) srfs o.

(** Lines 133-135:
    [if HBSrf.BC.lower() == "outdoors": allExposed.append(HBSrf.geometry)]. *)
Definition isExposed (HBSrf : HBSurface) : bool :=
  String.eqb (lower (BC HBSrf)) "outdoors".

Definition collectExposed (srfs : list HBSurface) (o : Outputs) : Outputs :=
  fold_left (fun o HBSrf =>
               if isExposed HBSrf
               then set_allExposed o (allExposed o ++ [geometry HBSrf])
               else o) srfs o.

(** The body of the loop over the zones (lines 88-135). *)
Definition zoneBody (blowerPressure : option R) (unit : bool)
  (airFlowRate : option R) (HZone : HBZone) (o : Outputs) : M Outputs :=
  (let zoneSrfArea := getExposedArea HZone in
   let flrArea := getFloorArea HZone in
   flow <- lift (baseFlowRate unit airFlowRate HZone) ;;
   flow <- lift (pressureConverted blowerPressure flow) ;;
   emit (PrintFlowRate (name HZone) flow) ;;;
   o <- appendFacade flow zoneSrfArea o ;;
   o <- appendFloor flow flrArea o ;;
   ret (collectExposed (surfaces HZone) (collectFloors (surfaces HZone) o)))%py.

Definition emptyOutputs : Outputs :=
  {| infPerAreaFacade := []; ventPerAreaFloor := [];
     allExposed := []; allFloors := [] |}.

(** [main(hb_hive, HBZones, airFlowRate, unit)]; the global
    [_blowerPressure_] that it reads is its first argument here. *)
Definition main (blowerPressure : option R) (hb_hive : hb_Hive)
  (HBZones : list (option HBObject)) (airFlowRate : option R) (unit : bool)
  : M Outputs :=
  let zones := visualizeFromHoneybeeHive hb_hive HBZones in
  for_each (zoneBody blowerPressure unit airFlowRate) zones emptyOutputs.

(** ** The component (lines 162-167)

    [initCheck] is the outcome of the Honeybee check of lines 141-157, which
    also provides [hb_hive].  When the guard or the validation fails, the
    outputs are left unset ([None]).  The test [result != -1] always holds
    for the tuple that [main] returns. *)
Definition nonEmpty {A} (l : list A) : bool :=
  match l with
  | [] => false
  | _ :: _ => true
  end.

Definition component (initCheck : bool) (hb_hive : hb_Hive) (inp : Inputs)
  : M (option Outputs) :=
  if nonEmpty (_HBZones inp) && truthy (_airFlowRate inp) && initCheck
  then (cu <- checkInputs inp ;;
        if fst cu
        then (res <- main (_blowerPressure_ inp) hb_hive (_HBZones inp)
                          (_airFlowRate inp) (snd cu) ;;
              ret (Some res))
        else ret None)%py
  else ret None.

End Component.

Arguments HBSurface : clear implicits.
Arguments HBZone : clear implicits.
Arguments hb_Hive : clear implicits.
Arguments Outputs : clear implicits.
Arguments Inputs : clear implicits.

(** ** The Honeybee check (lines 141-157)

    [sc.sticky] is the dictionary that the host shares between components.
    The check reads two of its entries: the release object, whose methods
    [isCompatible] and [isInputMissing] may write messages of their own and
    may raise, and the hive class, which is called to make [hb_hive].  A
    lookup raises when the entry is not there. *)

Section HoneybeeCheck.

Context {Geometry : Type} {HBObject : Type}.

Record honeybee_release : Type := {
  isCompatible : M bool;
  isInputMissing : M bool
}.

Record Sticky : Type := {
  has_key : string -> bool;
  sticky_honeybee_release : result honeybee_release;
  sticky_honeybee_Hive : result (M (hb_Hive Geometry HBObject))
}.

Definition msg_letHoneybeeFly : string := "You should first let Honeybee fly...".

Definition warning_newerVersion : string :=
  ("You need a newer version of Honeybee to use this compoent." ++
   "Use updateHoneybee component to update userObjects." ++ nl ++
   "If you have already updated userObjects drag Honeybee_Honeybee component " ++
   "into canvas and try again.")%string.

(** Returns [initCheck] and [hb_hive]; the latter is [None] when the
    assignment of line 150 was not reached. *)
Definition honeybeeCheck (sticky : Sticky)
  : M (bool * option (hb_Hive Geometry HBObject)) :=
  let initCheck := true in
  if negb (has_key sticky "honeybee_release")
  then (emit (Print msg_letHoneybeeFly) ;;;
        emit (AddRuntimeMessage Warning msg_letHoneybeeFly) ;;;
        ret (false, None))%py
  else
    try_except
      (release <- lift (sticky_honeybee_release sticky) ;;
       compatible <- isCompatible release ;;
       let initCheck := if negb compatible then false else initCheck in
       release <- lift (sticky_honeybee_release sticky) ;;
       missing <- isInputMissing release ;;
       let initCheck := if missing then false else initCheck in
       hive <- lift (sticky_honeybee_Hive sticky) ;;
       hb_hive <- hive ;;
       ret (initCheck, Some hb_hive))%py
      (emit (AddRuntimeMessage Warning warning_newerVersion) ;;;
       ret (false, None))%py.

End HoneybeeCheck.

Arguments Sticky : clear implicits.

(** * Derived notions used to state the properties *)

(** No area to divide by: the area is absent or zero. *)
Definition noArea (a : option R) : bool :=
  match a with
  | None => true
  | Some x => Reqb x 0
  end.

(** The quotient that a [try] block appends: the division, or 0 when it
    raised. *)
Definition quotientOr0 (flow : R) (area : option R) : R :=
  match py_div (Some flow) area with
  | Ok x => x
  | Raise _ => 0
  end.

(** [x != None] *)
Definition isSome {A} (o : option A) : bool :=
  match o with
  | Some _ => true
  | None => false
  end.

(** The two lines that an [except] block writes. *)
Definition warningsOf (msg : string) (area : option R) : log :=
  if noArea area then [Print msg; AddRuntimeMessage Warning msg] else [].

(** The lines of the report, by kind. *)
Definition isFlowLine (ev : event) : bool :=
  match ev with
  | PrintFlowRate _ _ => true
  | _ => false
  end.

Definition isRuntimeMessage (msg : string) (ev : event) : bool :=
  match ev with
  | AddRuntimeMessage _ m => String.eqb m msg
  | _ => false
  end.

(** A blower pressure under which the conversion is defined: absent, or
    not negative. *)
Definition pressureUsable (blowerPressure : option R) : Prop :=
  match blowerPressure with
  | None => True
  | Some p => 0 <= p
  end.

(** Two characters that are the same letter, whatever their case. *)
Definition same_letter (c d : ascii) : bool :=
  Ascii.eqb c d
  || (is_upper c && Ascii.eqb (ascii_of_nat (nat_of_ascii c + 32)) d).

(** Character-wise comparison of a string with a lower-case pattern,
    ignoring the case of the string. *)
Fixpoint equals_ignoring_case (s pat : string) : bool :=
  match s, pat with
  | EmptyString, EmptyString => true
  | String c s', String d pat' => same_letter c d && equals_ignoring_case s' pat'
  | _, _ => false
  end.

Fixpoint all_lower (s : string) : bool :=
  match s with
  | EmptyString => true
  | String c rest => negb (is_upper c) && all_lower rest
  end.

Section Derived.

Context {Geometry : Type}.

Local Abbreviation HBSurface := (HBSurface Geometry).
Local Abbreviation HBZone := (HBZone Geometry).
Local Abbreviation Outputs := (Outputs Geometry).

(** The floor and the exposed geometry that one zone adds. *)
Definition floorsOf (z : HBZone) : list Geometry :=
  map geometry (filter isFloor (surfaces z)).

Definition exposedOf (z : HBZone) : list Geometry :=
  map geometry (filter isExposed (surfaces z)).

(** The rule of the specification for floors: the type code is 2 itself. *)
Definition typeIsExactly2 (srf : HBSurface) : bool := Qeq_bool (type srf) 2.

Definition exactFloorsOf (z : HBZone) : list Geometry :=
  map geometry (filter typeIsExactly2 (surfaces z)).

(** The rule of the code for floors, without [int]: 2 <= type < 3. *)
Definition typeTruncatesTo2 (srf : HBSurface) : Prop :=
  (2 <= type srf /\ type srf < 3)%Q.

(** The rule of the specification for exposed surfaces. *)
Definition isOutdoorsIgnoringCase (srf : HBSurface) : bool :=
  equals_ignoring_case (BC srf) "outdoors".

Definition appendOutputs (o d : Outputs) : Outputs :=
  {| infPerAreaFacade := infPerAreaFacade o ++ infPerAreaFacade d;
     ventPerAreaFloor := ventPerAreaFloor o ++ ventPerAreaFloor d;
     allExposed := allExposed o ++ allExposed d;
     allFloors := allFloors o ++ allFloors d |}.

(** A zone as the data model admits it: areas absent or not negative, a
    positive volume. *)
Definition admittedArea (a : option R) : Prop :=
  match a with
  | None => True
  | Some x => 0 <= x
  end.

Definition admittedZone (z : HBZone) : Prop :=
  admittedArea (getExposedArea z) /\ admittedArea (getFloorArea z)
  /\ 0 < getZoneVolume z.

(** The multiplication of area mode needs the exposed area to be there. *)
Definition exposedAreaUsable (unit : bool) (z : HBZone) : Prop :=
  unit = true \/ getExposedArea z <> None.

Variable blowerPressure : option R.
Variable unit : bool.
Variable airFlowRate : option R.

(** The zone's flow rate, and 0 when its computation raised. *)
Definition flowOr0 (z : HBZone) : R :=
  match standardFlowRate blowerPressure unit airFlowRate z with
  | Ok f => f
  | Raise _ => 0
  end.

Definition flowDefined (z : HBZone) : Prop :=
  exists f, standardFlowRate blowerPressure unit airFlowRate z = Ok f.

Definition zoneFacade (z : HBZone) : R := quotientOr0 (flowOr0 z) (getExposedArea z).
Definition zoneFloor (z : HBZone) : R := quotientOr0 (flowOr0 z) (getFloorArea z).

Definition zoneLog (z : HBZone) : log :=
  PrintFlowRate (name z) (flowOr0 z)
  :: warningsOf warning_facade (getExposedArea z)
  ++ warningsOf warning_floor (getFloorArea z).

Definition zoneOutputs (z : HBZone) : Outputs :=
  {| infPerAreaFacade := [zoneFacade z];
     ventPerAreaFloor := [zoneFloor z];
     allExposed := exposedOf z;
     allFloors := floorsOf z |}.

Definition batchOutputs (zones : list HBZone) : Outputs :=
  {| infPerAreaFacade := map zoneFacade zones;
     ventPerAreaFloor := map zoneFloor zones;
     allExposed := flat_map exposedOf zones;
     allFloors := flat_map floorsOf zones |}.

End Derived.

(** ** Example data

    Geometry handles and canvas objects are numbers; the hive keeps its
    zones in a list and resolves object [k] to the zone at position [k],
    skipping what it does not find. *)

Definition hiveOf (store : list (HBZone nat)) : hb_Hive nat nat :=
  {| visualizeFromHoneybeeHive := fun objs =>
       flat_map (fun obj => match obj with
                            | Some k => match nth_error store k with
                                        | Some z => [z]
                                        | None => []
                                        end
                            | None => []
                            end) objs |}.

Definition exampleSurfaces : list (HBSurface nat) :=
  [ {| type := 2;        BC := "Ground";   geometry := 1%nat |};
    {| type := 5 # 2;    BC := "ground";   geometry := 2%nat |};
    {| type := 11 # 4;   BC := "Outdoors"; geometry := 3%nat |};
    {| type := 0;        BC := "OUTDOORS"; geometry := 4%nat |};
    {| type := 1;        BC := "outdoors"; geometry := 5%nat |};
    {| type := 3;        BC := "Surface";  geometry := 6%nat |};
    {| type := 0;        BC := "Outdoor";  geometry := 7%nat |} ].

Definition zoneWithAreas (n : string) (exposed floor : option R) : HBZone nat :=
  {| name := n; getExposedArea := exposed; getFloorArea := floor;
     getZoneVolume := 100; surfaces := exampleSurfaces |}.

(** 50 m2 of facade, 20 m2 of floor, 100 m3. *)
Definition exampleZone : HBZone nat := zoneWithAreas "zone_0" (Some 50) (Some 20).
(** A zone without exposed surfaces. *)
Definition innerZone : HBZone nat := zoneWithAreas "zone_1" (Some 0) (Some 20).
(** A zone without floor. *)
Definition floorlessZone : HBZone nat := zoneWithAreas "zone_2" (Some 50) (Some 0).
(** A zone whose exposed area is absent. *)
Definition unmeasuredZone : HBZone nat := zoneWithAreas "zone_3" None (Some 20).

Definition exampleInputs (rate : option R) (flag : option bool)
  (pressure : option R) (objs : list (option nat)) : Inputs nat :=
  {| _HBZones := objs; _airFlowRate := rate;
     _ACHorM3sM2_ := flag; _blowerPressure_ := pressure |}.

(** A host in which Honeybee flies: a release that accepts the component
    and a hive class that makes [hive]. *)
Definition flyingSticky (hive : hb_Hive nat nat) : Sticky nat nat :=
  {| has_key := fun k => String.eqb k "honeybee_release";
     sticky_honeybee_release :=
       Ok {| isCompatible := ret true; isInputMissing := ret false |};
     sticky_honeybee_Hive := Ok (ret hive) |}.

(** * Properties *)

(** ** Deciding comparisons of reals *)

Lemma Reqb_eq (x y : R) : Reqb x y = true <-> x = y.
Proof. unfold Reqb; destruct (Req_dec_T x y); split; congruence. Qed.

Lemma Reqb_neq (x y : R) : Reqb x y = false <-> x <> y.
Proof. unfold Reqb; destruct (Req_dec_T x y); split; congruence. Qed.

Lemma Rlt_bool_lt (x y : R) : Rlt_bool x y = true <-> x < y.
Proof. unfold Rlt_bool; destruct (Rlt_dec x y); split; intros; congruence. Qed.

Lemma Rlt_bool_nlt (x y : R) : Rlt_bool x y = false <-> ~ x < y.
Proof. unfold Rlt_bool; destruct (Rlt_dec x y); split; intros; congruence. Qed.

(** Settles every comparison of reals in the goal that [lra] can settle. *)
Ltac Rdecide :=
  repeat match goal with
    | |- context [Reqb ?x ?y] =>
        first [ rewrite (proj2 (Reqb_eq x y)) by lra
              | rewrite (proj2 (Reqb_neq x y)) by lra ]
    | |- context [Rlt_bool ?x ?y] =>
        first [ rewrite (proj2 (Rlt_bool_lt x y)) by lra
              | rewrite (proj2 (Rlt_bool_nlt x y)) by lra ]
    end.

(** ** Division and power *)

Lemma py_div_nonzero (x y : R) : y <> 0 -> py_div (Some x) (Some y) = Ok (x / y).
Proof. intros H; unfold py_div; now rewrite (proj2 (Reqb_neq y 0)). Qed.

Lemma py_div_noArea (x : R) (a : option R) :
  noArea a = true -> exists e, py_div (Some x) a = Raise e.
Proof.
  destruct a as [y|]; simpl; intros H.
  - rewrite H; eauto.
  - eauto.
Qed.

Lemma py_div_area (x : R) (a : option R) :
  noArea a = false -> exists y, a = Some y /\ y <> 0 /\ py_div (Some x) a = Ok (x / y).
Proof.
  destruct a as [y|]; simpl; intros H; [|discriminate].
  exists y; rewrite H; repeat split; auto. now apply Reqb_neq.
Qed.

Lemma Int_part_63_100 : Int_part (63 / 100) = 0%Z.
Proof. symmetry; apply Int_part_spec; simpl; lra. Qed.

Lemma exponent_not_integer : is_integer (63 / 100) = false.
Proof.
  unfold is_integer; rewrite Int_part_63_100; apply Reqb_neq; simpl; lra.
Qed.

Lemma math_pow_positive (x y : R) : 0 < x -> math_pow x y = Ok (Rpower x y).
Proof. intros H; unfold math_pow; now rewrite (proj2 (Rlt_bool_lt 0 x)). Qed.

Lemma math_pow_negative (x : R) : x < 0 -> math_pow x (63 / 100) = Raise ValueError.
Proof.
  intros H; unfold math_pow. Rdecide. now rewrite exponent_not_integer.
Qed.


Lemma Rpower_pos (x y : R) : 0 < Rpower x y.
Proof. unfold Rpower; apply exp_pos. Qed.

(** ** Truncation of type codes *)

Lemma py_int_2 (q : Q) : py_int q = 2%Z <-> (2 <= q /\ q < 3)%Q.
Proof.
  destruct q as [n d]; unfold py_int, Qle, Qlt; simpl.
  split.
  - intros H.
    assert (Hn : (0 <= n)%Z).
    { destruct (Z_lt_le_dec n 0) as [Hneg|]; [|assumption].
      exfalso.
      assert (Hq : (0 <= Z.quot (- n) (Z.pos d))%Z) by (apply Z.quot_pos; lia).
      rewrite Z.quot_opp_l in Hq by lia. lia. }
    rewrite Z.quot_div_nonneg in H by lia.
    pose proof (Z.div_mod n (Z.pos d) ltac:(lia)).
    pose proof (Z.mod_pos_bound n (Z.pos d) ltac:(lia)).
    nia.
  - intros [H1 H2].
    rewrite Z.quot_div_nonneg by lia.
    symmetry; apply (Z.div_unique n (Z.pos d) 2 (n - 2 * Z.pos d)); lia.
Qed.

(** ** Lower case and comparison without case *)

Lemma lower_ascii_same_letter (c d : ascii) :
  is_upper d = false -> Ascii.eqb (lower_ascii c) d = same_letter c d.
Proof.
  intros Hd; unfold lower_ascii, same_letter.
  destruct (is_upper c) eqn:Hc; simpl.
  - destruct (Ascii.eqb c d) eqn:E; simpl; auto.
    apply Ascii.eqb_eq in E; subst; congruence.
  - now rewrite orb_false_r.
Qed.

Lemma lower_eqb_ignoring_case (pat s : string) :
  all_lower pat = true ->
  String.eqb (lower s) pat = equals_ignoring_case s pat.
Proof.
  revert s; induction pat as [|d pat IH]; intros [|c s] Hp; simpl; auto.
  simpl in Hp; apply andb_true_iff in Hp as [Hd Hp].
  apply negb_true_iff in Hd.
  rewrite (lower_ascii_same_letter c d Hd), (IH s Hp).
  destruct (same_letter c d); reflexivity.
Qed.

(** ** What one zone contributes, and what the whole loop returns *)

Section Run.

Context {Geometry : Type}.

Local Abbreviation HBSurface := (HBSurface Geometry).
Local Abbreviation HBZone := (HBZone Geometry).
Local Abbreviation Outputs := (Outputs Geometry).

Lemma collectFloors_app (srfs : list HBSurface) (o : Outputs) :
  collectFloors srfs o
  = set_allFloors o (allFloors o ++ map geometry (filter isFloor srfs)).
Proof.
  unfold collectFloors; revert o.
  induction srfs as [|s srfs IH]; intros o; simpl.
  - rewrite app_nil_r; now destruct o.
  - rewrite IH; destruct (isFloor s); simpl; [|reflexivity].
    unfold set_allFloors; simpl; now rewrite <- app_assoc.
Qed.

Lemma collectExposed_app (srfs : list HBSurface) (o : Outputs) :
  collectExposed srfs o
  = set_allExposed o (allExposed o ++ map geometry (filter isExposed srfs)).
Proof.
  unfold collectExposed; revert o.
  induction srfs as [|s srfs IH]; intros o; simpl.
  - rewrite app_nil_r; now destruct o.
  - rewrite IH; destruct (isExposed s); simpl; [|reflexivity].
    unfold set_allExposed; simpl; now rewrite <- app_assoc.
Qed.

Lemma appendFacade_run (flow : R) (area : option R) (o : Outputs) (w : log) :
  appendFacade flow area o w
  = (Ok (set_infPerAreaFacade o (infPerAreaFacade o ++ [quotientOr0 flow area])),
     w ++ warningsOf warning_facade area).
Proof.
  unfold appendFacade, try_except, bind, lift, ret, emit, quotientOr0, warningsOf.
  destruct (noArea area) eqn:Ha.
  - destruct (py_div_noArea flow area Ha) as [e ->].
    now rewrite <- !app_assoc.
  - destruct (py_div_area flow area Ha) as (y & _ & _ & ->).
    now rewrite app_nil_r.
Qed.

Lemma appendFloor_run (flow : R) (area : option R) (o : Outputs) (w : log) :
  appendFloor flow area o w
  = (Ok (set_ventPerAreaFloor o (ventPerAreaFloor o ++ [quotientOr0 flow area])),
     w ++ warningsOf warning_floor area).
Proof.
  unfold appendFloor, try_except, bind, lift, ret, emit, quotientOr0, warningsOf.
  destruct (noArea area) eqn:Ha.
  - destruct (py_div_noArea flow area Ha) as [e ->].
    now rewrite <- !app_assoc.
  - destruct (py_div_area flow area Ha) as (y & _ & _ & ->).
    now rewrite app_nil_r.
Qed.

Variable blowerPressure : option R.
Variable unit : bool.
Variable airFlowRate : option R.

Local Abbreviation flowOf := (standardFlowRate blowerPressure unit airFlowRate).
Local Abbreviation body := (zoneBody blowerPressure unit airFlowRate).
Local Abbreviation flowOr0 := (flowOr0 blowerPressure unit airFlowRate).
Local Abbreviation flowDefined := (flowDefined blowerPressure unit airFlowRate).
Local Abbreviation zoneLog := (zoneLog blowerPressure unit airFlowRate).
Local Abbreviation zoneOutputs := (zoneOutputs blowerPressure unit airFlowRate).
Local Abbreviation batchOutputs := (batchOutputs blowerPressure unit airFlowRate).

Lemma zoneBody_run (z : HBZone) (o : Outputs) (w : log) :
  body z o w
  = match flowOf z with
    | Ok _ => (Ok (appendOutputs o (zoneOutputs z)), w ++ zoneLog z)
    | Raise e => (Raise e, w)
    end.
Proof.
  assert (Hflow : forall b f, baseFlowRate unit airFlowRate z = Ok b ->
                              pressureConverted blowerPressure b = Ok f ->
                              flowOr0 z = f).
  { intros b f Hb Hp; unfold flowOr0, standardFlowRate, rbind.
    now rewrite Hb, Hp. }
  unfold zoneBody, standardFlowRate, rbind.
  unfold bind at 1, lift at 1.
  destruct (baseFlowRate unit airFlowRate z) as [b|e]; [|reflexivity].
  specialize (Hflow b).
  unfold bind at 1, lift at 1.
  destruct (pressureConverted blowerPressure b) as [f|e]; [|reflexivity].
  unfold bind at 1, emit at 1.
  unfold bind at 1; rewrite appendFacade_run.
  unfold bind at 1; rewrite appendFloor_run.
  unfold ret; rewrite collectFloors_app, collectExposed_app.
  unfold zoneLog, zoneOutputs, zoneFacade, zoneFloor.
  rewrite (Hflow f eq_refl eq_refl).
  f_equal. cbn [app]. now rewrite <- !app_assoc.
Qed.

Lemma appendOutputs_empty (d : Outputs) : appendOutputs emptyOutputs d = d.
Proof. now destruct d. Qed.

Lemma appendOutputs_assoc (a b c : Outputs) :
  appendOutputs (appendOutputs a b) c = appendOutputs a (appendOutputs b c).
Proof. unfold appendOutputs; simpl; now rewrite <- !app_assoc. Qed.

Lemma batchOutputs_cons (z : HBZone) (zones : list HBZone) :
  batchOutputs (z :: zones) = appendOutputs (zoneOutputs z) (batchOutputs zones).
Proof. reflexivity. Qed.

(** The loop on zones whose flow rates are all defined. *)
Lemma loop_completes (zones : list HBZone) (o : Outputs) (w : log) :
  Forall flowDefined zones ->
  for_each body zones o w
  = (Ok (appendOutputs o (batchOutputs zones)), w ++ flat_map zoneLog zones).
Proof.
  intros H; revert o w; induction H as [|z zones [f Hf] _ IH]; intros o w.
  - simpl; unfold ret, appendOutputs; simpl.
    rewrite !app_nil_r; now destruct o.
  - cbn [for_each]; unfold bind; rewrite zoneBody_run, Hf, IH.
    rewrite batchOutputs_cons, appendOutputs_assoc.
    cbn [flat_map]; now rewrite <- app_assoc.
Qed.

(** The loop stops at the first zone whose flow rate raises. *)
Lemma loop_raises (before : list HBZone) (z : HBZone) (after : list HBZone)
  (e : exn) (o : Outputs) (w : log) :
  Forall flowDefined before ->
  flowOf z = Raise e ->
  for_each body (before ++ z :: after) o w
  = (Raise e, w ++ flat_map zoneLog before).
Proof.
  intros H Hz; revert o w; induction H as [|z0 zones [f Hf] _ IH]; intros o w.
  - cbn [app for_each flat_map]; unfold bind; rewrite zoneBody_run, Hz.
    now rewrite app_nil_r.
  - cbn [app for_each flat_map]; unfold bind; rewrite zoneBody_run, Hf, IH.
    now rewrite <- app_assoc.
Qed.

(** When the loop returns, every flow rate was defined. *)
Lemma loop_returned (zones : list HBZone) (o o' : Outputs) (w w' : log) :
  for_each body zones o w = (Ok o', w') -> Forall flowDefined zones.
Proof.
  revert o w; induction zones as [|z zones IH]; intros o w H; [constructor|].
  cbn [for_each] in H; unfold bind in H; rewrite zoneBody_run in H.
  destruct (flowOf z) as [f|e] eqn:Hf; [|discriminate].
  constructor; [now exists f | eauto].
Qed.

End Run.

(** ** The flow rate of a zone *)

Section Flow.

Context {Geometry : Type}.

Local Abbreviation HBZone := (HBZone Geometry).

Lemma pressureConverted_absent (b : R) : pressureConverted None b = Ok b.
Proof. reflexivity. Qed.

Lemma pressureConverted_zero (b : R) : pressureConverted (Some 0) b = Ok b.
Proof. unfold pressureConverted. now Rdecide. Qed.

Lemma pressureConverted_positive (p b : R) :
  0 < p -> pressureConverted (Some p) b = Ok (b / Rpower (p / 4) (63 / 100)).
Proof.
  intros Hp; unfold pressureConverted. Rdecide; simpl.
  rewrite math_pow_positive by lra; simpl.
  apply py_div_nonzero. pose proof (Rpower_pos (p / 4) (63 / 100)); lra.
Qed.

Lemma pressureConverted_negative (p b : R) :
  p < 0 -> pressureConverted (Some p) b = Raise ValueError.
Proof.
  intros Hp; unfold pressureConverted. Rdecide; simpl.
  now rewrite math_pow_negative by lra.
Qed.

Lemma pressureConverted_usable (bp : option R) (b : R) :
  pressureUsable bp -> exists f, pressureConverted bp b = Ok f.
Proof.
  destruct bp as [p|]; cbn [pressureUsable]; intros H.
  - destruct (Rle_lt_or_eq_dec 0 p H) as [Hlt|<-].
    + rewrite pressureConverted_positive by assumption; eauto.
    + rewrite pressureConverted_zero; eauto.
  - rewrite pressureConverted_absent; eauto.
Qed.

Lemma baseFlowRate_ACH (r : R) (z : HBZone) :
  baseFlowRate true (Some r) z = Ok (r * getZoneVolume z / 3600).
Proof. reflexivity. Qed.

Lemma baseFlowRate_area (r a : R) (z : HBZone) :
  getExposedArea z = Some a -> baseFlowRate false (Some r) z = Ok (r * a).
Proof. intros H; unfold baseFlowRate; now rewrite H. Qed.

Lemma baseFlowRate_area_absent (r : option R) (z : HBZone) :
  getExposedArea z = None -> baseFlowRate false r z = Raise TypeError.
Proof. intros H; unfold baseFlowRate; rewrite H; now destruct r. Qed.

Lemma baseFlowRate_usable (unit : bool) (r : R) (z : HBZone) :
  exposedAreaUsable unit z -> exists b, baseFlowRate unit (Some r) z = Ok b.
Proof.
  intros [->|H].
  - rewrite baseFlowRate_ACH; eauto.
  - destruct unit; [rewrite baseFlowRate_ACH; eauto|].
    destruct (getExposedArea z) as [a|] eqn:Ha; [|congruence].
    rewrite (baseFlowRate_area r a z Ha); eauto.
Qed.

Lemma flowDefined_usable (bp : option R) (unit : bool) (r : R) (z : HBZone) :
  pressureUsable bp -> exposedAreaUsable unit z ->
  flowDefined bp unit (Some r) z.
Proof.
  intros Hp Hz; unfold flowDefined, standardFlowRate.
  destruct (baseFlowRate_usable unit r z Hz) as [b ->]; simpl.
  now apply pressureConverted_usable.
Qed.

Lemma flowOr0_defined (bp : option R) (unit : bool) (rate : option R)
  (z : HBZone) (f : R) :
  standardFlowRate bp unit rate z = Ok f -> flowOr0 bp unit rate z = f.
Proof. intros H; unfold flowOr0; now rewrite H. Qed.

Lemma quotientOr0_noArea (f : R) (a : option R) :
  noArea a = true -> quotientOr0 f a = 0.
Proof.
  intros H; unfold quotientOr0. now destruct (py_div_noArea f a H) as [e ->].
Qed.

Lemma quotientOr0_area (f y : R) : y <> 0 -> quotientOr0 f (Some y) = f / y.
Proof. intros H; unfold quotientOr0; now rewrite py_div_nonzero. Qed.

Lemma noArea_zero : noArea (Some 0) = true.
Proof. apply Reqb_eq; reflexivity. Qed.

End Flow.

(** ** main as a whole *)

Section Main.

Context {Geometry : Type} {HBObject : Type}.

Variable blowerPressure : option R.
Variable hb_hive : hb_Hive Geometry HBObject.
Variable HBZones : list (option HBObject).
Variable airFlowRate : option R.
Variable unit : bool.

Local Abbreviation zones := (visualizeFromHoneybeeHive hb_hive HBZones).
Local Abbreviation run := (main blowerPressure hb_hive HBZones airFlowRate unit).

Lemma main_completes (w : log) :
  Forall (flowDefined blowerPressure unit airFlowRate) zones ->
  run w = (Ok (batchOutputs blowerPressure unit airFlowRate zones),
           w ++ flat_map (zoneLog blowerPressure unit airFlowRate) zones).
Proof.
  intros H; unfold main; rewrite (loop_completes _ _ _ _ _ _ H).
  now rewrite appendOutputs_empty.
Qed.

Lemma main_returned (w w' : log) (out : Outputs Geometry) :
  run w = (Ok out, w') ->
  Forall (flowDefined blowerPressure unit airFlowRate) zones
  /\ out = batchOutputs blowerPressure unit airFlowRate zones
  /\ w' = w ++ flat_map (zoneLog blowerPressure unit airFlowRate) zones.
Proof.
  intros H.
  assert (Hd := loop_returned _ _ _ _ _ _ _ _ H).
  rewrite (main_completes w Hd) in H; inversion H; auto.
Qed.

Lemma main_raises (before after : list (HBZone Geometry)) (z : HBZone Geometry)
  (e : exn) (w : log) :
  zones = before ++ z :: after ->
  Forall (flowDefined blowerPressure unit airFlowRate) before ->
  standardFlowRate blowerPressure unit airFlowRate z = Raise e ->
  run w = (Raise e, w ++ flat_map (zoneLog blowerPressure unit airFlowRate) before).
Proof.
  intros Hz Hb He; unfold main; rewrite Hz.
  now apply loop_raises.
Qed.

End Main.

(** ** Runs on the example data *)

Lemma exampleZone_alone_run (bp : option R) (unit : bool) (r : R)
  (z : HBZone nat) (w : log) :
  pressureUsable bp -> exposedAreaUsable unit z ->
  main bp (hiveOf [z]) [Some 0%nat] (Some r) unit w
  = (Ok (batchOutputs bp unit (Some r) [z]),
     w ++ flat_map (zoneLog bp unit (Some r)) [z]).
Proof.
  intros Hp Hz.
  apply (main_completes bp (hiveOf [z]) [Some 0%nat] (Some r) unit w).
  cbn. repeat constructor. now apply flowDefined_usable.
Qed.

(** ** Geometry classification *)

Section Classification.

Context {Geometry : Type} {HBObject : Type}.

Local Abbreviation HBSurface := (HBSurface Geometry).
Local Abbreviation HBZone := (HBZone Geometry).

Lemma isFloor_truncates (srf : HBSurface) :
  isFloor srf = true <-> typeTruncatesTo2 srf.
Proof.
  unfold isFloor, typeTruncatesTo2; rewrite Z.eqb_eq; apply py_int_2.
Qed.

Lemma isExposed_ignoring_case (srf : HBSurface) :
  isExposed srf = isOutdoorsIgnoringCase srf.
Proof.
  unfold isExposed, isOutdoorsIgnoringCase.
  now apply lower_eqb_ignoring_case.
Qed.

Lemma In_flat_map_geometry (keep : HBSurface -> bool) (zones : list HBZone)
  (g : Geometry) :
  In g (flat_map (fun z => map geometry (filter keep (surfaces z))) zones)
  <-> exists z srf, In z zones /\ In srf (surfaces z)
                    /\ geometry srf = g /\ keep srf = true.
Proof.
  rewrite in_flat_map; split.
  - intros (z & Hz & Hg). apply in_map_iff in Hg as (srf & Hgeo & Hs).
    apply filter_In in Hs as [Hs Hk]. now exists z, srf.
  - intros (z & srf & Hz & Hs & Hgeo & Hk). exists z; split; [assumption|].
    apply in_map_iff; exists srf; split; [assumption|].
    now apply filter_In.
Qed.

(** C1 (as amended): when the batch returns, [allFloors] holds, zone after
    zone and in the order of the surfaces, the geometry of exactly the
    surfaces whose type code truncates to 2, that is 2 <= type < 3; surfaces
    coded 2.5 and 2.75 are therefore in it, like those coded 2. *)
Theorem allFloors_truncated_type (bp : option R)
  (hb_hive : hb_Hive Geometry HBObject) (HBZones : list (option HBObject))
  (rate : option R) (unit : bool) (w w' : log) (out : Outputs Geometry) :
  main bp hb_hive HBZones rate unit w = (Ok out, w') ->
  let zones := visualizeFromHoneybeeHive hb_hive HBZones in
  allFloors out = flat_map floorsOf zones
  /\ (forall g, In g (allFloors out)
                <-> exists z srf, In z zones /\ In srf (surfaces z)
                                  /\ geometry srf = g /\ typeTruncatesTo2 srf)
  /\ (forall srf : HBSurface,
         (type srf == 2 \/ type srf == 5 # 2 \/ type srf == 11 # 4)%Q ->
         isFloor srf = true).
Proof.
  intros H zones.
  apply main_returned in H as (_ & -> & _).
  split; [reflexivity|split].
  - intros g; cbn [allFloors batchOutputs]; unfold floorsOf.
    rewrite In_flat_map_geometry.
    split; intros (z & srf & Hz & Hs & Hg & Hk); exists z, srf;
      repeat split; try assumption; now apply isFloor_truncates.
  - intros srf Ht; apply isFloor_truncates; unfold typeTruncatesTo2.
    destruct Ht as [Ht|[Ht|Ht]]; rewrite Ht; split; unfold Qle, Qlt; simpl; lia.
Qed.

(** C10: when the batch returns, [allExposed] holds, zone after zone and in
    the order of the surfaces, the geometry of exactly the surfaces whose
    boundary condition is "outdoors" when case is ignored. *)
Theorem allExposed_outdoors_ignoring_case (bp : option R)
  (hb_hive : hb_Hive Geometry HBObject) (HBZones : list (option HBObject))
  (rate : option R) (unit : bool) (w w' : log) (out : Outputs Geometry) :
  main bp hb_hive HBZones rate unit w = (Ok out, w') ->
  let zones := visualizeFromHoneybeeHive hb_hive HBZones in
  allExposed out
  = flat_map (fun z => map geometry (filter isOutdoorsIgnoringCase (surfaces z)))
      zones
  /\ (forall g, In g (allExposed out)
                <-> exists z srf, In z zones /\ In srf (surfaces z)
                                  /\ geometry srf = g
                                  /\ equals_ignoring_case (BC srf) "outdoors" = true).
Proof.
  intros H; cbv zeta.
  apply main_returned in H as (_ & -> & _).
  set (zones := visualizeFromHoneybeeHive hb_hive HBZones).
  assert (E : allExposed (batchOutputs bp unit rate zones)
              = flat_map (fun z => map geometry
                                     (filter isOutdoorsIgnoringCase (surfaces z)))
                  zones).
  { cbn [allExposed batchOutputs]; unfold exposedOf.
    apply flat_map_ext; intros z; f_equal.
    apply filter_ext; intros srf; apply isExposed_ignoring_case. }
  split; [exact E|].
  intros g; rewrite E, In_flat_map_geometry; reflexivity.
Qed.

End Classification.

(** C1 as the specification words it fails: with surfaces coded 2, 2.5 and
    2.75 in a zone, [allFloors] holds all three geometries, where the
    exact-match rule keeps only the first. *)
Lemma allFloors_exact_match_counterexample :
  exists out w,
    main None (hiveOf [exampleZone]) [Some 0%nat] (Some 1) true [] = (Ok out, w)
    /\ allFloors out = [1; 2; 3]%nat
    /\ flat_map exactFloorsOf [exampleZone] = [1]%nat
    /\ allFloors out <> flat_map exactFloorsOf [exampleZone].
Proof.
  eexists; eexists; split.
  - apply exampleZone_alone_run; simpl; auto. now left.
  - repeat split; try reflexivity. discriminate.
Qed.

Lemma allFloors_truncated_type_witness :
  main None (hiveOf [exampleZone]) [Some 0%nat] (Some 1) true []
  = (Ok (batchOutputs None true (Some 1) [exampleZone]),
     [] ++ flat_map (zoneLog None true (Some 1)) [exampleZone])
  /\ allFloors (batchOutputs None true (Some 1) [exampleZone]) = [1; 2; 3]%nat.
Proof.
  assert (H : main None (hiveOf [exampleZone]) [Some 0%nat] (Some 1) true []
              = (Ok (batchOutputs None true (Some 1) [exampleZone]),
                 [] ++ flat_map (zoneLog None true (Some 1)) [exampleZone])).
  { apply exampleZone_alone_run; simpl; auto. now left. }
  split; [exact H|].
  rewrite (proj1 (allFloors_truncated_type _ _ _ _ _ _ _ _ H)).
  reflexivity.
Defined.

Lemma allExposed_outdoors_ignoring_case_witness :
  main None (hiveOf [exampleZone]) [Some 0%nat] (Some 1) true []
  = (Ok (batchOutputs None true (Some 1) [exampleZone]),
     [] ++ flat_map (zoneLog None true (Some 1)) [exampleZone])
  /\ allExposed (batchOutputs None true (Some 1) [exampleZone]) = [3; 4; 5]%nat.
Proof.
  assert (H : main None (hiveOf [exampleZone]) [Some 0%nat] (Some 1) true []
              = (Ok (batchOutputs None true (Some 1) [exampleZone]),
                 [] ++ flat_map (zoneLog None true (Some 1)) [exampleZone])).
  { apply exampleZone_alone_run; simpl; auto. now left. }
  split; [exact H|].
  rewrite (proj1 (allExposed_outdoors_ignoring_case _ _ _ _ _ _ _ _ H)).
  reflexivity.
Defined.

(** ** checkInputs and the flow rate *)

Section FlowRate.

Context {Geometry : Type} {HBObject : Type}.

Local Abbreviation HBZone := (HBZone Geometry).

(** What [checkInputs] returns and writes on a list of zones that is not
    empty. *)
Lemma checkInputs_run (inp : Inputs HBObject) (w : log)
  (first : option HBObject) (rest : list (option HBObject)) :
  _HBZones inp = first :: rest ->
  checkInputs inp w
  = (Ok (negb (py_lt0 (_airFlowRate inp)) && isSome first,
         effectiveUnit (_ACHorM3sM2_ inp)),
     w ++ (if py_lt0 (_airFlowRate inp)
           then [Print msg_airChangeHour;
                 AddRuntimeMessage Warning msg_airChangeHour]
           else [])).
Proof.
  intros Hz; unfold checkInputs, bind, ret, emit; rewrite Hz.
  destruct (py_lt0 (_airFlowRate inp)), first; cbn;
    rewrite <- ?app_assoc, ?app_nil_r; reflexivity.
Qed.

Lemma checkInputs_unit (inp : Inputs HBObject) (w w' : log)
  (checkData unit : bool) :
  checkInputs inp w = (Ok (checkData, unit), w') ->
  unit = effectiveUnit (_ACHorM3sM2_ inp).
Proof.
  destruct (_HBZones inp) as [|first rest] eqn:Hz.
  - unfold checkInputs, bind, ret, emit, raise; rewrite Hz.
    destruct (py_lt0 (_airFlowRate inp)); discriminate.
  - rewrite (checkInputs_run inp w first rest Hz); congruence.
Qed.

(** C3: with the unit that [checkInputs] returns, the flow rate before any
    pressure conversion is rate * volume / 3600 when the ACH flag is true
    or unset, and rate * exposed area when the flag is false. *)
Theorem base_flow_rate_by_mode (inp : Inputs HBObject) (w w' : log)
  (checkData unit : bool) (rate : R) (z : HBZone) :
  checkInputs inp w = (Ok (checkData, unit), w') ->
  (_ACHorM3sM2_ inp = Some true \/ _ACHorM3sM2_ inp = None ->
   baseFlowRate unit (Some rate) z = Ok (rate * getZoneVolume z / 3600))
  /\ (_ACHorM3sM2_ inp = Some false ->
      forall a, getExposedArea z = Some a ->
                baseFlowRate unit (Some rate) z = Ok (rate * a)).
Proof.
  intros H; apply checkInputs_unit in H; subst unit; split.
  - intros [-> | ->]; apply baseFlowRate_ACH.
  - intros -> a Ha; now apply baseFlowRate_area.
Qed.

(** C4: the flow rate that both divisions use is the base flow rate itself
    when the blower pressure is absent or 0.  When the pressure is present
    and not 0, it is the base flow rate divided by what
    [math.pow(pressure / 4, 0.63)] returns, wherever that quotient has a
    value (the power is returned and is not 0); in general it is the
    outcome of the Python division of the base flow rate by the power
    returned, which raises when that power is 0, and an exception of
    [math.pow] is the outcome of the flow rate. *)
Theorem pressure_conversion (bp : option R) (unit : bool) (rate : option R)
  (z : HBZone) (b : R) :
  baseFlowRate unit rate z = Ok b ->
  (bp = None \/ bp = Some 0 -> standardFlowRate bp unit rate z = Ok b)
  /\ (forall p d, bp = Some p -> p <> 0 ->
        math_pow (p / 4) (63 / 100) = Ok d -> d <> 0 ->
        standardFlowRate bp unit rate z = Ok (b / d))
  /\ (forall p d, bp = Some p -> p <> 0 ->
        math_pow (p / 4) (63 / 100) = Ok d ->
        standardFlowRate bp unit rate z = py_div (Some b) (Some d))
  /\ (forall p e, bp = Some p -> p <> 0 ->
        math_pow (p / 4) (63 / 100) = Raise e ->
        standardFlowRate bp unit rate z = Raise e)
  /\ (forall f o w,
        standardFlowRate bp unit rate z = Ok f ->
        exists o' w',
          zoneBody bp unit rate z o w = (Ok o', w')
          /\ infPerAreaFacade o'
             = infPerAreaFacade o ++ [quotientOr0 f (getExposedArea z)]
          /\ ventPerAreaFloor o'
             = ventPerAreaFloor o ++ [quotientOr0 f (getFloorArea z)]).
Proof.
  intros Hb; unfold standardFlowRate at 1 2 3 4; rewrite Hb; cbn [rbind].
  repeat split.
  - intros [-> | ->];
      [apply pressureConverted_absent | apply pressureConverted_zero].
  - intros p d -> Hp Hd Hd0; unfold pressureConverted.
    rewrite (proj2 (Reqb_neq p 0) Hp); cbn [negb]; rewrite Hd; cbn [rbind].
    now apply py_div_nonzero.
  - intros p d -> Hp Hd; unfold pressureConverted.
    rewrite (proj2 (Reqb_neq p 0) Hp); cbn [negb]; now rewrite Hd.
  - intros p e -> Hp He; unfold pressureConverted.
    rewrite (proj2 (Reqb_neq p 0) Hp); cbn [negb]; now rewrite He.
  - intros f o w Hf; rewrite zoneBody_run, Hf.
    eexists; eexists; split; [reflexivity|].
    cbn; unfold zoneFacade, zoneFloor.
    now rewrite (flowOr0_defined _ _ _ _ _ Hf).
Qed.


End FlowRate.

Lemma base_flow_rate_by_mode_witness :
  checkInputs (exampleInputs (Some 1) None None [Some 0%nat]) []
  = (Ok (true, true), [])
  /\ baseFlowRate true (Some 1) exampleZone = Ok (1 * 100 / 3600).
Proof.
  assert (H : checkInputs (exampleInputs (Some 1) None None [Some 0%nat]) []
              = (Ok (true, true), [])).
  { rewrite (checkInputs_run _ _ (Some 0%nat) []) by reflexivity.
    cbn. unfold Rlt_bool. destruct (Rlt_dec 1 0); [lra | reflexivity]. }
  split; [exact H|].
  exact (proj1 (base_flow_rate_by_mode _ _ _ _ _ 1 exampleZone H)
           (or_intror eq_refl)).
Defined.

Lemma pressure_conversion_witness :
  baseFlowRate true (Some (1 / 2)) exampleZone = Ok (1 / 2 * 100 / 3600)
  /\ 50 <> 0
  /\ math_pow (50 / 4) (63 / 100) = Ok (Rpower (50 / 4) (63 / 100))
  /\ Rpower (50 / 4) (63 / 100) <> 0
  /\ standardFlowRate (Some 50) true (Some (1 / 2)) exampleZone
     = Ok (1 / 2 * 100 / 3600 / Rpower (50 / 4) (63 / 100)).
Proof.
  assert (Hp : 50 <> 0) by lra.
  assert (Hd : math_pow (50 / 4) (63 / 100) = Ok (Rpower (50 / 4) (63 / 100))).
  { apply math_pow_positive; lra. }
  assert (Hd0 : Rpower (50 / 4) (63 / 100) <> 0).
  { pose proof (Rpower_pos (50 / 4) (63 / 100)); lra. }
  split; [reflexivity|]. split; [exact Hp|]. split; [exact Hd|].
  split; [exact Hd0|].
  exact (proj1 (proj2
           (pressure_conversion (Some 50) true (Some (1 / 2)) exampleZone
              (1 / 2 * 100 / 3600) eq_refl))
           50 (Rpower (50 / 4) (63 / 100)) eq_refl Hp Hd Hd0).
Defined.



(** ** The batch *)

Section Batch.

Context {Geometry : Type} {HBObject : Type}.

Local Abbreviation HBZone := (HBZone Geometry).

Variable blowerPressure : option R.
Variable hb_hive : hb_Hive Geometry HBObject.
Variable HBZones : list (option HBObject).

Local Abbreviation zones := (visualizeFromHoneybeeHive hb_hive HBZones).

Lemma flowDefined_all_usable (unit : bool) (r : R) (zs : list HBZone) :
  pressureUsable blowerPressure ->
  Forall (exposedAreaUsable unit) zs ->
  Forall (flowDefined blowerPressure unit (Some r)) zs.
Proof.
  intros Hp Hz; eapply Forall_impl; [|exact Hz].
  intros z; now apply flowDefined_usable.
Qed.

Lemma In_warnings (msg : string) (area : option R) (l1 l2 : log) :
  noArea area = true ->
  In (Print msg) (l1 ++ warningsOf msg area ++ l2)
  /\ In (AddRuntimeMessage Warning msg) (l1 ++ warningsOf msg area ++ l2).
Proof.
  intros H; unfold warningsOf; rewrite H.
  split; apply in_or_app; right; simpl; auto.
Qed.

Lemma In_zoneLog_batch (unit : bool) (rate : option R) (z : HBZone)
  (zs : list HBZone) (w : log) (ev : event) :
  In z zs -> In ev (zoneLog blowerPressure unit rate z) ->
  In ev (w ++ flat_map (zoneLog blowerPressure unit rate) zs).
Proof.
  intros Hz Hev; apply in_or_app; right.
  apply in_flat_map; now exists z.
Qed.

Lemma facade_warning_logged (unit : bool) (rate : option R) (z : HBZone) :
  noArea (getExposedArea z) = true ->
  In (Print warning_facade) (zoneLog blowerPressure unit rate z)
  /\ In (AddRuntimeMessage Warning warning_facade)
        (zoneLog blowerPressure unit rate z).
Proof.
  intros H; unfold zoneLog.
  exact (In_warnings warning_facade (getExposedArea z)
           [PrintFlowRate (name z) (flowOr0 blowerPressure unit rate z)]
           (warningsOf warning_floor (getFloorArea z)) H).
Qed.

Lemma floor_warning_logged (unit : bool) (rate : option R) (z : HBZone) :
  noArea (getFloorArea z) = true ->
  In (Print warning_floor) (zoneLog blowerPressure unit rate z)
  /\ In (AddRuntimeMessage Warning warning_floor)
        (zoneLog blowerPressure unit rate z).
Proof.
  intros H; unfold zoneLog.
  pose proof (In_warnings warning_floor (getFloorArea z)
                (PrintFlowRate (name z) (flowOr0 blowerPressure unit rate z)
                 :: warningsOf warning_facade (getExposedArea z)) [] H) as Hw.
  rewrite app_nil_r in Hw. exact Hw.
Qed.

(** The flow rate of a zone is defined as soon as its base flow rate is,
    when there is no pressure conversion or when the blower pressure is at
    least the reference of 4 Pa. *)
Lemma flowDefined_without_conversion (unit : bool) (rate : option R)
  (zs : list HBZone) :
  blowerPressure = None \/ blowerPressure = Some 0
  \/ (exists p, blowerPressure = Some p /\ 4 <= p) ->
  (exists r, rate = Some r) ->
  Forall (exposedAreaUsable unit) zs ->
  Forall (flowDefined blowerPressure unit rate) zs.
Proof.
  intros Hp [r ->] Hz; apply flowDefined_all_usable; [|assumption].
  destruct Hp as [-> | [-> | (p & -> & Hp)]]; simpl; [exact I | lra | lra].
Qed.

(** C6: when the batch returns, [infPerAreaFacade] and [ventPerAreaFloor]
    are the zones' facade and floor intensities, one per zone and in the
    order of the zones; and the batch returns exactly when the flow rate of
    every zone is defined. *)
Theorem intensities_one_per_zone (airFlowRate : option R) (unit : bool)
  (w : log) :
  (forall out w',
      main blowerPressure hb_hive HBZones airFlowRate unit w = (Ok out, w') ->
      infPerAreaFacade out = map (zoneFacade blowerPressure unit airFlowRate) zones
      /\ ventPerAreaFloor out = map (zoneFloor blowerPressure unit airFlowRate) zones
      /\ List.length (infPerAreaFacade out) = List.length zones
      /\ List.length (ventPerAreaFloor out) = List.length zones
      /\ (forall i z, nth_error zones i = Some z ->
            nth_error (infPerAreaFacade out) i
            = Some (zoneFacade blowerPressure unit airFlowRate z)
            /\ nth_error (ventPerAreaFloor out) i
               = Some (zoneFloor blowerPressure unit airFlowRate z)))
  /\ ((exists out w',
          main blowerPressure hb_hive HBZones airFlowRate unit w = (Ok out, w'))
      <-> Forall (flowDefined blowerPressure unit airFlowRate) zones).
Proof.
  split.
  - intros out w' H; apply main_returned in H as (_ & -> & _).
    cbn [infPerAreaFacade ventPerAreaFloor batchOutputs].
    rewrite !length_map; repeat split; try reflexivity.
    + now apply map_nth_error.
    + now apply map_nth_error.
  - split.
    + intros (out & w' & H); now apply main_returned in H.
    + intros H; eexists; eexists; now apply main_completes.
Qed.

(** C2 (as amended): whenever the flow rate of every zone is computed
    without an exception, the batch returns without one: a division that has
    no area to divide by yields 0 and writes its warning, any other
    division yields the quotient.  The flow rate of every zone is computed
    without an exception when the blower pressure is absent, 0 or at least
    4, the rate is a number and (in area mode) every zone has an exposed
    area. *)
Theorem batch_completes_without_exception (rate : option R) (unit : bool)
  (w : log) :
  (Forall (flowDefined blowerPressure unit rate) zones ->
   exists out w',
     main blowerPressure hb_hive HBZones rate unit w = (Ok out, w')
     /\ out = batchOutputs blowerPressure unit rate zones
     /\ w' = w ++ flat_map (zoneLog blowerPressure unit rate) zones
     /\ (forall z, In z zones ->
           exists f, standardFlowRate blowerPressure unit rate z = Ok f
           /\ (noArea (getExposedArea z) = true ->
               zoneFacade blowerPressure unit rate z = 0
               /\ In (Print warning_facade) w'
               /\ In (AddRuntimeMessage Warning warning_facade) w')
           /\ (noArea (getFloorArea z) = true ->
               zoneFloor blowerPressure unit rate z = 0
               /\ In (Print warning_floor) w'
               /\ In (AddRuntimeMessage Warning warning_floor) w')
           /\ (forall a, getExposedArea z = Some a -> a <> 0 ->
               zoneFacade blowerPressure unit rate z = f / a)
           /\ (forall a, getFloorArea z = Some a -> a <> 0 ->
               zoneFloor blowerPressure unit rate z = f / a)))
  /\ (blowerPressure = None \/ blowerPressure = Some 0
      \/ (exists p, blowerPressure = Some p /\ 4 <= p) ->
      (exists r, rate = Some r) ->
      Forall (exposedAreaUsable unit) zones ->
      Forall (flowDefined blowerPressure unit rate) zones).
Proof.
  split; [|apply flowDefined_without_conversion].
  intros Hd.
  eexists; eexists; split; [now apply main_completes|].
  split; [reflexivity|]. split; [reflexivity|].
  intros z Hin.
  rewrite Forall_forall in Hd; destruct (Hd z Hin) as [f Hf].
  exists f; split; [exact Hf|].
  unfold zoneFacade, zoneFloor; rewrite (flowOr0_defined _ _ _ _ _ Hf).
  repeat split.
  - now apply quotientOr0_noArea.
  - eapply In_zoneLog_batch; [exact Hin|]. now apply facade_warning_logged.
  - eapply In_zoneLog_batch; [exact Hin|]. now apply facade_warning_logged.
  - now apply quotientOr0_noArea.
  - eapply In_zoneLog_batch; [exact Hin|]. now apply floor_warning_logged.
  - eapply In_zoneLog_batch; [exact Hin|]. now apply floor_warning_logged.
  - intros a -> Ha; now apply quotientOr0_area.
  - intros a -> Ha; now apply quotientOr0_area.
Qed.

End Batch.

Section ZeroArea.

Context {Geometry : Type} {HBObject : Type}.

Local Abbreviation HBZone := (HBZone Geometry).

Variable blowerPressure : option R.
Variable hb_hive : hb_Hive Geometry HBObject.
Variable HBZones : list (option HBObject).

Local Abbreviation zones := (visualizeFromHoneybeeHive hb_hive HBZones).

(** C5 (as amended): whenever the flow rate of every zone is computed
    without an exception, a zone whose exposed area is zero or absent gets 0
    as its facade intensity and a zone whose floor area is zero or absent
    gets 0 as its floor intensity, each with its warning; the other
    intensity of the zone is still the quotient of the flow rate by the
    other area, and every zone of the batch gets its two outputs.  The flow
    rate of every zone is computed without an exception when the blower
    pressure is absent, 0 or at least 4, the rate is a number and (in area
    mode) every zone has an exposed area. *)
Theorem zero_area_yields_zero (rate : option R) (unit : bool) (w : log) :
  (Forall (flowDefined blowerPressure unit rate) zones ->
   exists out w',
     main blowerPressure hb_hive HBZones rate unit w = (Ok out, w')
     /\ List.length (infPerAreaFacade out) = List.length zones
     /\ List.length (ventPerAreaFloor out) = List.length zones
     /\ (forall i z, nth_error zones i = Some z ->
           (noArea (getExposedArea z) = true ->
            nth_error (infPerAreaFacade out) i = Some 0
            /\ In (Print warning_facade) w'
            /\ In (AddRuntimeMessage Warning warning_facade) w')
           /\ (noArea (getFloorArea z) = true ->
               nth_error (ventPerAreaFloor out) i = Some 0
               /\ In (Print warning_floor) w'
               /\ In (AddRuntimeMessage Warning warning_floor) w')
           /\ (forall a, getExposedArea z = Some a -> a <> 0 ->
               nth_error (infPerAreaFacade out) i
               = Some (flowOr0 blowerPressure unit rate z / a))
           /\ (forall a, getFloorArea z = Some a -> a <> 0 ->
               nth_error (ventPerAreaFloor out) i
               = Some (flowOr0 blowerPressure unit rate z / a))))
  /\ (blowerPressure = None \/ blowerPressure = Some 0
      \/ (exists p, blowerPressure = Some p /\ 4 <= p) ->
      (exists r, rate = Some r) ->
      Forall (exposedAreaUsable unit) zones ->
      Forall (flowDefined blowerPressure unit rate) zones).
Proof.
  split; [|apply flowDefined_without_conversion].
  intros Hd.
  eexists; eexists; split; [now apply main_completes|].
  cbn [infPerAreaFacade ventPerAreaFloor batchOutputs].
  rewrite !length_map; split; [reflexivity|]. split; [reflexivity|].
  intros i z Hi.
  pose proof (nth_error_In _ _ Hi) as Hin.
  rewrite (map_nth_error (zoneFacade blowerPressure unit rate) _ _ Hi).
  rewrite (map_nth_error (zoneFloor blowerPressure unit rate) _ _ Hi).
  unfold zoneFacade, zoneFloor.
  repeat split.
  - now rewrite quotientOr0_noArea.
  - eapply In_zoneLog_batch; [exact Hin|]. now apply facade_warning_logged.
  - eapply In_zoneLog_batch; [exact Hin|]. now apply facade_warning_logged.
  - now rewrite quotientOr0_noArea.
  - eapply In_zoneLog_batch; [exact Hin|]. now apply floor_warning_logged.
  - eapply In_zoneLog_batch; [exact Hin|]. now apply floor_warning_logged.
  - intros a -> Ha; now rewrite quotientOr0_area.
  - intros a -> Ha; now rewrite quotientOr0_area.
Qed.


End ZeroArea.

(** ** The component *)

Section Entry.

Context {Geometry : Type} {HBObject : Type}.

Lemma py_lt0_negative (r : R) : r < 0 -> py_lt0 (Some r) = true.
Proof. intros H; now apply Rlt_bool_lt. Qed.

(** C7 (as amended): a negative air flow rate, or a list of zones whose
    first element is null, leaves the outputs unset and no exception is
    raised.  When the entry guard lets the run through, [checkInputs] returns
    [checkData = False] and [main] is not run: the component writes what
    [checkInputs] wrote and nothing else, which is the warning for a
    negative rate, and nothing at all for a null first zone with a rate that
    is not negative.  When the guard does not let the run through, nothing
    is written either. *)
Theorem invalid_input_blocks_batch (initCheck : bool)
  (hb_hive : hb_Hive Geometry HBObject) (inp : Inputs HBObject) (w : log) :
  (exists r, _airFlowRate inp = Some r /\ r < 0)
  \/ (exists rest, _HBZones inp = None :: rest) ->
  fst (component initCheck hb_hive inp w) = Ok None
  /\ (nonEmpty (_HBZones inp) && truthy (_airFlowRate inp) && initCheck = true ->
      exists unit w',
        checkInputs inp w = (Ok (false, unit), w')
        /\ component initCheck hb_hive inp w = (Ok None, w')
        /\ w' = w ++ (if py_lt0 (_airFlowRate inp)
                      then [Print msg_airChangeHour;
                            AddRuntimeMessage Warning msg_airChangeHour]
                      else [])
        /\ ((exists r, _airFlowRate inp = Some r /\ r < 0) ->
            In (Print msg_airChangeHour) w'
            /\ In (AddRuntimeMessage Warning msg_airChangeHour) w')
        /\ ((exists r, _airFlowRate inp = Some r /\ 0 <= r) -> w' = w))
  /\ (nonEmpty (_HBZones inp) && truthy (_airFlowRate inp) && initCheck = false ->
      component initCheck hb_hive inp w = (Ok None, w)).
Proof.
  intros Hbad.
  assert (Hcheck : forall first rest, _HBZones inp = first :: rest ->
                     negb (py_lt0 (_airFlowRate inp)) && isSome first = false).
  { intros first rest Hz; destruct Hbad as [(r & Hr & Hneg) | (rest' & Hn)].
    - now rewrite Hr, py_lt0_negative.
    - rewrite Hn in Hz; injection Hz as <- _. apply andb_false_r. }
  assert (Hguard : nonEmpty (_HBZones inp) && truthy (_airFlowRate inp)
                  && initCheck = true ->
                  exists unit w',
                    checkInputs inp w = (Ok (false, unit), w')
                    /\ component initCheck hb_hive inp w = (Ok None, w')
                    /\ w' = w ++ (if py_lt0 (_airFlowRate inp)
                                  then [Print msg_airChangeHour;
                                        AddRuntimeMessage Warning msg_airChangeHour]
                                  else [])).
  { intros Hg; unfold component; rewrite Hg.
    destruct (_HBZones inp) as [|first rest] eqn:Hz; [discriminate|].
    pose proof (checkInputs_run inp w first rest Hz) as Hrun.
    rewrite (Hcheck first rest eq_refl) in Hrun.
    eexists; eexists; split; [exact Hrun|].
    unfold bind; rewrite Hrun; cbn. split; reflexivity. }
  split; [|split].
  - destruct (nonEmpty (_HBZones inp) && truthy (_airFlowRate inp) && initCheck)
      eqn:Hg.
    + destruct (Hguard eq_refl) as (u & w' & _ & -> & _); reflexivity.
    + unfold component; rewrite Hg; reflexivity.
  - intros Hg; destruct (Hguard Hg) as (u & w' & Hc & Hcomp & Hw).
    exists u, w'; split; [exact Hc|]. split; [exact Hcomp|].
    split; [exact Hw|]. split.
    + intros (r & Hr & Hneg); subst w'.
      rewrite Hr, py_lt0_negative by assumption.
      split; apply in_or_app; right; simpl; auto.
    + intros (r & Hr & Hnn); subst w'; rewrite Hr; simpl.
      rewrite (proj2 (Rlt_bool_nlt r 0)) by lra. apply app_nil_r.
  - intros Hg; unfold component; rewrite Hg; reflexivity.
Qed.

End Entry.

(** ** The properties on the example data *)

Lemma exposedAreaUsable_ACH (z : HBZone nat) : exposedAreaUsable true z.
Proof. now left. Qed.

Lemma exposedAreaUsable_present (unit : bool) (z : HBZone nat) (a : R) :
  getExposedArea z = Some a -> exposedAreaUsable unit z.
Proof. intros H; right; congruence. Qed.

Lemma negative_pressure_raises (unit : bool) (z : HBZone nat) (b : R) :
  baseFlowRate unit (Some 1) z = Ok b ->
  standardFlowRate (Some (-50)) unit (Some 1) z = Raise ValueError.
Proof.
  intros Hb; unfold standardFlowRate; rewrite Hb; cbn [rbind].
  apply pressureConverted_negative; lra.
Qed.

(** C2 as the specification words it fails: a zone with positive areas and
    volume, a rate of 1 ACH and a blower pressure of -50 Pa;
    [math.pow(-12.5, 0.63)] raises a [ValueError] that leaves [main]. *)
Lemma batch_exception_counterexample :
  admittedZone exampleZone
  /\ 0 <= 1
  /\ main (Some (-50)) (hiveOf [exampleZone]) [Some 0%nat] (Some 1) true []
     = (Raise ValueError, []).
Proof.
  split; [|split].
  - unfold admittedZone; simpl; lra.
  - lra.
  - apply (main_raises (Some (-50)) (hiveOf [exampleZone]) [Some 0%nat]
             (Some 1) true [] [] exampleZone ValueError []).
    + reflexivity.
    + constructor.
    + now apply (negative_pressure_raises true exampleZone (1 * 100 / 3600)).
Qed.

Lemma batch_completes_without_exception_witness :
  (Some 50 = None \/ Some 50 = Some 0 \/ exists p, Some 50 = Some p /\ 4 <= p)
  /\ (exists r, Some 1 = Some r)
  /\ Forall (exposedAreaUsable true) [innerZone; floorlessZone]
  /\ Forall (flowDefined (Some 50) true (Some 1)) [innerZone; floorlessZone]
  /\ exists out w',
       main (Some 50) (hiveOf [innerZone; floorlessZone])
         [Some 0%nat; Some 1%nat] (Some 1) true [] = (Ok out, w')
       /\ zoneFacade (Some 50) true (Some 1) innerZone = 0
       /\ zoneFloor (Some 50) true (Some 1) floorlessZone = 0.
Proof.
  assert (Hp : Some 50 = None \/ Some 50 = Some 0
               \/ exists p, Some 50 = Some p /\ 4 <= p).
  { right; right; exists 50; split; [reflexivity | lra]. }
  assert (Hr : exists r, Some 1 = Some r) by (exists 1; reflexivity).
  assert (Hz : Forall (exposedAreaUsable true) [innerZone; floorlessZone]).
  { apply Forall_cons; [apply exposedAreaUsable_ACH|].
    apply Forall_cons; [apply exposedAreaUsable_ACH|]. apply Forall_nil. }
  destruct (batch_completes_without_exception (Some 50)
              (hiveOf [innerZone; floorlessZone]) [Some 0%nat; Some 1%nat]
              (Some 1) true []) as [Hruns Hsuff].
  pose proof (Hsuff Hp Hr Hz) as Hd.
  split; [exact Hp|]. split; [exact Hr|]. split; [exact Hz|].
  split; [exact Hd|].
  destruct (Hruns Hd) as (out & w' & Hrun & _ & _ & Hzones).
  exists out, w'; split; [exact Hrun|]. split.
  - destruct (Hzones innerZone (or_introl eq_refl)) as (f & _ & H0 & _).
    exact (proj1 (H0 noArea_zero)).
  - destruct (Hzones floorlessZone (or_intror (or_introl eq_refl)))
      as (f & _ & _ & H0 & _).
    exact (proj1 (H0 noArea_zero)).
Defined.

(** C5 as the specification words it fails: in area mode a zone whose
    exposed area is absent makes [airFlowRate * zoneSrfArea] raise a
    [TypeError] outside any [try]: no 0 is output and the next zone is not
    reached.  A negative blower pressure stops the batch in the same way
    before a zone without exposed area gets its 0. *)
Lemma zero_area_counterexample :
  noArea (getExposedArea unmeasuredZone) = true
  /\ main None (hiveOf [unmeasuredZone; exampleZone]) [Some 0%nat; Some 1%nat]
       (Some 1) false [] = (Raise TypeError, [])
  /\ noArea (getExposedArea innerZone) = true
  /\ main (Some (-50)) (hiveOf [innerZone; exampleZone]) [Some 0%nat; Some 1%nat]
       (Some 1) true [] = (Raise ValueError, []).
Proof.
  split; [reflexivity|]. split; [|split; [apply noArea_zero|]].
  - apply (main_raises None (hiveOf [unmeasuredZone; exampleZone])
             [Some 0%nat; Some 1%nat] (Some 1) false [] [exampleZone]
             unmeasuredZone TypeError []).
    + reflexivity.
    + constructor.
    + unfold standardFlowRate.
      now rewrite (baseFlowRate_area_absent (Some 1) unmeasuredZone eq_refl).
  - apply (main_raises (Some (-50)) (hiveOf [innerZone; exampleZone])
             [Some 0%nat; Some 1%nat] (Some 1) true [] [exampleZone]
             innerZone ValueError []).
    + reflexivity.
    + constructor.
    + now apply (negative_pressure_raises true innerZone (1 * 100 / 3600)).
Qed.

Lemma zero_area_yields_zero_witness :
  (@None R = None \/ @None R = Some 0
   \/ exists p, @None R = Some p /\ 4 <= p)
  /\ (exists r, Some 1 = Some r)
  /\ Forall (exposedAreaUsable false) [innerZone; exampleZone]
  /\ Forall (flowDefined None false (Some 1)) [innerZone; exampleZone]
  /\ exists out w',
       main None (hiveOf [innerZone; exampleZone]) [Some 0%nat; Some 1%nat]
         (Some 1) false [] = (Ok out, w')
       /\ nth_error (infPerAreaFacade out) 0 = Some 0
       /\ List.length (infPerAreaFacade out) = 2%nat.
Proof.
  assert (Hp : @None R = None \/ @None R = Some 0
               \/ exists p, @None R = Some p /\ 4 <= p) by (left; reflexivity).
  assert (Hr : exists r, Some 1 = Some r) by (exists 1; reflexivity).
  assert (Hz : Forall (exposedAreaUsable false) [innerZone; exampleZone]).
  { apply Forall_cons;
      [apply (exposedAreaUsable_present false innerZone 0 eq_refl)|].
    apply Forall_cons;
      [apply (exposedAreaUsable_present false exampleZone 50 eq_refl)|].
    apply Forall_nil. }
  destruct (zero_area_yields_zero None (hiveOf [innerZone; exampleZone])
              [Some 0%nat; Some 1%nat] (Some 1) false []) as [Hruns Hsuff].
  pose proof (Hsuff Hp Hr Hz) as Hd.
  split; [exact Hp|]. split; [exact Hr|]. split; [exact Hz|].
  split; [exact Hd|].
  destruct (Hruns Hd) as (out & w' & Hrun & Hlen & _ & Hzones).
  exists out, w'; split; [exact Hrun|]. split; [|exact Hlen].
  destruct (Hzones 0%nat innerZone eq_refl) as (H0 & _).
  exact (proj1 (H0 noArea_zero)).
Defined.

Lemma intensities_one_per_zone_witness :
  exists out w',
    main None (hiveOf [exampleZone; innerZone]) [Some 0%nat; Some 1%nat]
      (Some 1) true [] = (Ok out, w')
    /\ List.length (infPerAreaFacade out) = 2%nat
    /\ List.length (ventPerAreaFloor out) = 2%nat.
Proof.
  destruct (intensities_one_per_zone None (hiveOf [exampleZone; innerZone])
              [Some 0%nat; Some 1%nat] (Some 1) true []) as [Hshape [_ Hruns]].
  destruct Hruns as (out & w' & Hrun).
  { apply Forall_cons;
      [apply flowDefined_usable; [exact I | apply exposedAreaUsable_ACH]|].
    apply Forall_cons;
      [apply flowDefined_usable; [exact I | apply exposedAreaUsable_ACH]|].
    apply Forall_nil. }
  exists out, w'; split; [exact Hrun|].
  destruct (Hshape out w' Hrun) as (_ & _ & Hl1 & Hl2 & _).
  split; assumption.
Defined.



(** C7 as the specification words it fails: with a null first zone and a
    rate of 1 the validation fails, but nothing is printed and no runtime
    message is added: the component leaves the log as it found it, exactly
    as it does when the Honeybee check has not passed. *)
Lemma null_first_zone_counterexample :
  checkInputs (exampleInputs (Some 1) None None [None; Some 0%nat]) []
  = (Ok (false, true), [])
  /\ component true (hiveOf [exampleZone])
       (exampleInputs (Some 1) None None [None; Some 0%nat]) []
     = (Ok None, [])
  /\ component false (hiveOf [exampleZone])
       (exampleInputs (Some 1) None None [None; Some 0%nat]) []
     = (Ok None, []).
Proof.
  assert (Hlt : py_lt0 (Some 1) = false).
  { simpl; apply Rlt_bool_nlt; lra. }
  assert (Ht : truthy (Some 1) = true).
  { simpl; apply negb_true_iff, Reqb_neq; lra. }
  assert (Hc : checkInputs (exampleInputs (Some 1) None None [None; Some 0%nat]) []
               = (Ok (false, true), [])).
  { rewrite (checkInputs_run _ _ None [Some 0%nat]) by reflexivity.
    cbn [_airFlowRate _ACHorM3sM2_ exampleInputs effectiveUnit isSome].
    now rewrite Hlt. }
  split; [exact Hc|]. split.
  - unfold component.
    cbn [_HBZones _airFlowRate exampleInputs nonEmpty].
    rewrite Ht; cbn [andb]. unfold bind; rewrite Hc; reflexivity.
  - unfold component.
    cbn [_HBZones _airFlowRate exampleInputs nonEmpty].
    rewrite Ht; reflexivity.
Qed.

Lemma invalid_input_blocks_batch_witness :
  (exists r, _airFlowRate (exampleInputs (Some (-1)) None None [Some 0%nat])
             = Some r /\ r < 0)
  /\ fst (component true (hiveOf [exampleZone])
            (exampleInputs (Some (-1)) None None [Some 0%nat]) [])
     = Ok None.
Proof.
  assert (H : exists r,
             _airFlowRate (exampleInputs (Some (-1)) None None [Some 0%nat])
             = Some r /\ r < 0).
  { exists (-1); split; [reflexivity | lra]. }
  split; [exact H|].
  exact (proj1 (invalid_input_blocks_batch true (hiveOf [exampleZone])
                  (exampleInputs (Some (-1)) None None [Some 0%nat]) []
                  (or_introl H))).
Defined.

(** * Further properties of the code *)

(** ** How main and the component fail *)

Section Failures.

Context {Geometry : Type} {HBObject : Type}.

Local Abbreviation HBZone := (HBZone Geometry).

Lemma loop_raised (bp : option R) (unit : bool) (rate : option R)
  (zs : list HBZone) (o : Outputs Geometry) (w w' : log) (e : exn) :
  for_each (zoneBody bp unit rate) zs o w = (Raise e, w') ->
  exists before z after,
    zs = before ++ z :: after
    /\ Forall (flowDefined bp unit rate) before
    /\ standardFlowRate bp unit rate z = Raise e
    /\ w' = w ++ flat_map (zoneLog bp unit rate) before.
Proof.
  revert o w; induction zs as [|z zs IH]; intros o w H; [discriminate|].
  cbn [for_each] in H; unfold bind in H; rewrite zoneBody_run in H.
  destruct (standardFlowRate bp unit rate z) as [f|e0] eqn:Hf.
  - apply IH in H as (before & z' & after & -> & Hb & Hz & ->).
    exists (z :: before), z', after; repeat split; try assumption.
    + constructor; [now exists f | assumption].
    + cbn [flat_map]; now rewrite <- app_assoc.
  - injection H as <- <-.
    exists [], z, zs; repeat split; [constructor | assumption |].
    now rewrite app_nil_r.
Qed.

Lemma standardFlowRate_raised (bp : option R) (unit : bool) (rate : option R)
  (z : HBZone) (e : exn) :
  standardFlowRate bp unit rate z = Raise e ->
  (e = TypeError /\ (rate = None \/ (unit = false /\ getExposedArea z = None)))
  \/ (exists p b, bp = Some p /\ p <> 0
                  /\ baseFlowRate unit rate z = Ok b
                  /\ pressureConverted bp b = Raise e).
Proof.
  unfold standardFlowRate.
  destruct (baseFlowRate unit rate z) as [b|e0] eqn:Hb; cbn [rbind].
  - intros H; right.
    destruct bp as [p|]; [|now rewrite pressureConverted_absent in H].
    destruct (Req_dec_T p 0) as [-> | Hp];
      [now rewrite pressureConverted_zero in H|].
    now exists p, b.
  - intros H; left; injection H as <-.
    unfold baseFlowRate in Hb.
    destruct unit, rate as [r|]; cbn in Hb; try discriminate;
      try (injection Hb as <-; split; [reflexivity | now left]).
    destruct (getExposedArea z); [discriminate|].
    injection Hb as <-; split; [reflexivity | right; split; reflexivity].
Qed.

Variable blowerPressure : option R.
Variable hb_hive : hb_Hive Geometry HBObject.
Variable HBZones : list (option HBObject).

Local Abbreviation zones := (visualizeFromHoneybeeHive hb_hive HBZones).

(** main raises exactly when the flow rate of some zone raises: the
    exception is that of the first such zone, the lines of the zones before
    it have been written, and nothing is written for it or for the zones
    after it. *)
Theorem main_raises_at_first_failure (airFlowRate : option R) (unit : bool)
  (w w' : log) (e : exn) :
  main blowerPressure hb_hive HBZones airFlowRate unit w = (Raise e, w')
  <-> exists before z after,
        zones = before ++ z :: after
        /\ Forall (flowDefined blowerPressure unit airFlowRate) before
        /\ standardFlowRate blowerPressure unit airFlowRate z = Raise e
        /\ w' = w ++ flat_map (zoneLog blowerPressure unit airFlowRate) before.
Proof.
  split.
  - intros H; exact (loop_raised _ _ _ _ _ _ _ _ H).
  - intros (before & z & after & Hz & Hb & He & ->).
    now apply (main_raises _ _ _ _ _ before after z).
Qed.

(** An exception leaves main only out of the flow rate of a zone: it is
    either the [TypeError] of the product of lines 94 and 96, when the rate
    is [None] or when, in area mode, the zone has no exposed area value, or
    the exception of the pressure conversion of line 100, which runs only
    for a blower pressure that is present and not 0.  With the blower
    pressure absent or 0, a [TypeError] of that kind is all that can leave
    main. *)
Theorem main_exception_kinds (airFlowRate : option R) (unit : bool)
  (w w' : log) (e : exn) :
  main blowerPressure hb_hive HBZones airFlowRate unit w = (Raise e, w') ->
  ((e = TypeError
    /\ (airFlowRate = None
        \/ (unit = false /\ exists z, In z zones /\ getExposedArea z = None)))
   \/ (exists p z b, blowerPressure = Some p /\ p <> 0 /\ In z zones
                     /\ baseFlowRate unit airFlowRate z = Ok b
                     /\ pressureConverted blowerPressure b = Raise e))
  /\ (blowerPressure = None \/ blowerPressure = Some 0 -> e = TypeError).
Proof.
  intros H; apply loop_raised in H as (before & z & after & Hz & _ & He & _).
  assert (Hin : In z zones) by (rewrite Hz; apply in_or_app; right; now left).
  apply standardFlowRate_raised in He
    as [[-> [Hr | [Hu Ha]]] | (p & b & Hp & Hp0 & Hb & Hc)].
  - split; [|reflexivity]. left; split; [reflexivity | now left].
  - split; [|reflexivity]. left; split; [reflexivity | right; split; [assumption|]].
    now exists z.
  - split; [right; now exists p, z, b|].
    intros [Hn | H0]; rewrite Hp in *; [discriminate|].
    injection H0 as H0; contradiction.
Qed.

End Failures.

(** ** Validation and the entry code *)

Section Validation.

Context {Geometry : Type} {HBObject : Type}.

Lemma py_lt0_false (a : option R) :
  py_lt0 a = false <-> exists r, a = Some r /\ 0 <= r.
Proof.
  destruct a as [r|]; simpl.
  - rewrite Rlt_bool_nlt; split.
    + intros H; exists r; split; [reflexivity | lra].
    + intros (r' & [= <-] & H); lra.
  - split; [discriminate | intros (r & H & _); discriminate].
Qed.

Lemma truthy_positive (r : R) : truthy (Some r) = true -> 0 <= r -> 0 < r.
Proof.
  simpl; intros H Hr; apply negb_true_iff, Reqb_neq in H; lra.
Qed.

(** [checkInputs] on an empty list of zones raises the [IndexError] of
    [_HBZones[0]], after the warning for a negative rate if there is one.  On
    a list that is not empty it accepts the inputs exactly when the first
    zone is not null and the rate is a number that is not negative; it then
    writes nothing and returns the effective unit. *)
Theorem checkInputs_outcome (inp : Inputs HBObject) (w : log) :
  (_HBZones inp = [] ->
   checkInputs inp w
   = (Raise IndexError,
      w ++ (if py_lt0 (_airFlowRate inp)
            then [Print msg_airChangeHour;
                  AddRuntimeMessage Warning msg_airChangeHour]
            else [])))
  /\ (forall unit w',
        checkInputs inp w = (Ok (true, unit), w')
        <-> (exists first rest, _HBZones inp = Some first :: rest)
            /\ (exists r, _airFlowRate inp = Some r /\ 0 <= r)
            /\ unit = effectiveUnit (_ACHorM3sM2_ inp)
            /\ w' = w).
Proof.
  split.
  - intros Hz; unfold checkInputs, bind, ret, emit, raise; rewrite Hz.
    destruct (py_lt0 (_airFlowRate inp)); cbn;
      rewrite <- ?app_assoc, ?app_nil_r; reflexivity.
  - intros unit w'; split.
    + intros H.
      destruct (_HBZones inp) as [|first rest] eqn:Hz.
      * unfold checkInputs, bind, ret, emit, raise in H; rewrite Hz in H.
        destruct (py_lt0 (_airFlowRate inp)); discriminate.
      * rewrite (checkInputs_run inp w first rest Hz) in H.
        injection H as Hcd Hu Hw.
        apply andb_true_iff in Hcd as [Hlt Hfirst].
        apply negb_true_iff in Hlt.
        destruct first as [first|]; [|discriminate].
        rewrite Hlt, app_nil_r in Hw.
        repeat split; try congruence; [now exists first, rest|].
        now apply py_lt0_false.
    + intros ((first & rest & Hz) & Hr & -> & ->).
      apply py_lt0_false in Hr.
      rewrite (checkInputs_run inp w (Some first) rest Hz), Hr; cbn.
      now rewrite app_nil_r.
Qed.

(** What the entry code does once its guard is passed. *)
Lemma component_guarded (hb_hive : hb_Hive Geometry HBObject)
  (inp : Inputs HBObject) (w : log) (first : option HBObject)
  (rest : list (option HBObject)) :
  _HBZones inp = first :: rest ->
  truthy (_airFlowRate inp) = true ->
  component true hb_hive inp w
  = if negb (py_lt0 (_airFlowRate inp)) && isSome first
    then match main (_blowerPressure_ inp) hb_hive (_HBZones inp)
                 (_airFlowRate inp) (effectiveUnit (_ACHorM3sM2_ inp)) w with
         | (Ok out, w') => (Ok (Some out), w')
         | (Raise e, w') => (Raise e, w')
         end
    else (Ok None,
          w ++ (if py_lt0 (_airFlowRate inp)
                then [Print msg_airChangeHour;
                      AddRuntimeMessage Warning msg_airChangeHour]
                else [])).
Proof.
  intros Hz Ht.
  assert (Hn : nonEmpty (_HBZones inp) = true) by (rewrite Hz; reflexivity).
  unfold component; rewrite Hn, Ht; cbn [andb].
  unfold bind at 1; rewrite (checkInputs_run inp w first rest Hz); cbn [fst snd].
  destruct (negb (py_lt0 (_airFlowRate inp)) && isSome first) eqn:Hcd;
    [|reflexivity].
  apply andb_true_iff in Hcd as [Hlt _]; apply negb_true_iff in Hlt.
  rewrite Hlt, app_nil_r; unfold bind, ret.
  destruct (main _ _ _ _ _ w) as [[out|e] w1]; reflexivity.
Qed.

Lemma component_unguarded (initCheck : bool)
  (hb_hive : hb_Hive Geometry HBObject) (inp : Inputs HBObject) (w : log) :
  nonEmpty (_HBZones inp) && truthy (_airFlowRate inp) && initCheck = false ->
  component initCheck hb_hive inp w = (Ok None, w).
Proof. intros H; unfold component; now rewrite H. Qed.

Lemma guard_passed (initCheck : bool) (inp : Inputs HBObject) :
  nonEmpty (_HBZones inp) && truthy (_airFlowRate inp) && initCheck = true ->
  initCheck = true /\ truthy (_airFlowRate inp) = true
  /\ exists first rest, _HBZones inp = first :: rest.
Proof.
  intros H; apply andb_true_iff in H as [H Hi].
  apply andb_true_iff in H as [Hn Ht].
  repeat split; try assumption.
  destruct (_HBZones inp) as [|first rest]; [discriminate | eauto].
Qed.

(** The component sets its outputs exactly when the Honeybee check
    passed, the first zone is not null, the rate is strictly positive and
    [main], run with the effective unit, returns; the outputs and the
    written lines are then those of [main]. *)
Theorem component_sets_outputs (initCheck : bool)
  (hb_hive : hb_Hive Geometry HBObject) (inp : Inputs HBObject)
  (w w' : log) (out : Outputs Geometry) :
  component initCheck hb_hive inp w = (Ok (Some out), w')
  <-> initCheck = true
      /\ (exists first rest, _HBZones inp = Some first :: rest)
      /\ (exists r, _airFlowRate inp = Some r /\ 0 < r)
      /\ main (_blowerPressure_ inp) hb_hive (_HBZones inp) (_airFlowRate inp)
           (effectiveUnit (_ACHorM3sM2_ inp)) w = (Ok out, w').
Proof.
  split.
  - intros H.
    destruct (nonEmpty (_HBZones inp) && truthy (_airFlowRate inp) && initCheck)
      eqn:Hg; [|rewrite component_unguarded in H by assumption; discriminate].
    apply guard_passed in Hg as (-> & Ht & first & rest & Hz).
    rewrite (component_guarded hb_hive inp w first rest Hz Ht) in H.
    destruct (negb (py_lt0 (_airFlowRate inp)) && isSome first) eqn:Hcd;
      [|discriminate].
    apply andb_true_iff in Hcd as [Hlt Hfirst]; apply negb_true_iff in Hlt.
    apply py_lt0_false in Hlt as (r & Hr & Hnn).
    destruct first as [first|]; [|discriminate].
    split; [reflexivity|]. split; [now exists first, rest|].
    split.
    + exists r; split; [assumption|].
      rewrite Hr in Ht; now apply truthy_positive.
    + destruct (main _ _ _ _ _ w) as [[out0|e] w1]; congruence.
  - intros (-> & (first & rest & Hz) & (r & Hr & Hpos) & Hmain).
    assert (Ht : truthy (_airFlowRate inp) = true).
    { rewrite Hr; simpl; apply negb_true_iff, Reqb_neq; lra. }
    rewrite (component_guarded hb_hive inp w (Some first) rest Hz Ht), Hmain.
    assert (Hlt : py_lt0 (_airFlowRate inp) = false).
    { apply py_lt0_false; exists r; split; [assumption | lra]. }
    now rewrite Hlt.
Qed.


End Validation.

(** ** Arithmetic of the intensities *)

Section Intensities.

Context {Geometry : Type} {HBObject : Type}.

Local Abbreviation HBZone := (HBZone Geometry).

Lemma Rpower_one (y : R) : Rpower 1 y = 1.
Proof. unfold Rpower; now rewrite ln_1, Rmult_0_r, exp_0. Qed.

Lemma pressureConverted_cases (bp : option R) (b f : R) :
  pressureConverted bp b = Ok f ->
  f = b \/ exists p, bp = Some p /\ 0 < p /\ f = b / Rpower (p / 4) (63 / 100).
Proof.
  destruct bp as [p|]; [|rewrite pressureConverted_absent; left; congruence].
  destruct (total_order_T p 0) as [[Hneg | ->] | Hpos].
  - now rewrite pressureConverted_negative.
  - rewrite pressureConverted_zero; left; congruence.
  - rewrite pressureConverted_positive by assumption.
    intros [= <-]; right; now exists p.
Qed.

Lemma standardFlowRate_nonnegative (bp : option R) (unit : bool) (r f : R)
  (z : HBZone) :
  standardFlowRate bp unit (Some r) z = Ok f ->
  0 <= r -> admittedZone z -> 0 <= f.
Proof.
  intros H Hr (Hea & _ & Hvol); unfold standardFlowRate in H.
  destruct (baseFlowRate unit (Some r) z) as [b|e] eqn:Hb; [|discriminate].
  cbn [rbind] in H.
  assert (Hb0 : 0 <= b).
  { unfold baseFlowRate in Hb; destruct unit; cbn in Hb.
    - injection Hb as <-. apply Rmult_le_pos; [nra|].
      apply Rlt_le, Rinv_0_lt_compat; lra.
    - destruct (getExposedArea z) as [a|]; [|discriminate].
      injection Hb as <-; simpl in Hea; nra. }
  destruct (pressureConverted_cases bp b f H) as [-> | (p & _ & Hp & ->)];
    [assumption|].
  apply Rmult_le_pos; [assumption|].
  apply Rlt_le, Rinv_0_lt_compat, Rpower_pos.
Qed.

Lemma quotientOr0_nonnegative (f : R) (a : option R) :
  0 <= f -> admittedArea a -> 0 <= quotientOr0 f a.
Proof.
  intros Hf Ha; destruct (noArea a) eqn:Hn.
  - rewrite quotientOr0_noArea by assumption; lra.
  - destruct (py_div_area f a Hn) as (y & -> & Hy & _).
    rewrite quotientOr0_area by assumption; simpl in Ha.
    apply Rmult_le_pos; [assumption|].
    apply Rlt_le, Rinv_0_lt_compat; lra.
Qed.

Variable blowerPressure : option R.
Variable hb_hive : hb_Hive Geometry HBObject.
Variable HBZones : list (option HBObject).

Local Abbreviation zones := (visualizeFromHoneybeeHive hb_hive HBZones).

Lemma pressureConverted_reference (b : R) :
  pressureConverted (Some 4) b = pressureConverted None b.
Proof.
  rewrite pressureConverted_positive, pressureConverted_absent by lra.
  replace (4 / 4) with 1 by lra. rewrite Rpower_one; f_equal; lra.
Qed.

Lemma zoneBody_reference (unit : bool) (rate : option R) (z : HBZone)
  (o : Outputs Geometry) (w : log) :
  zoneBody (Some 4) unit rate z o w = zoneBody None unit rate z o w.
Proof.
  unfold zoneBody, bind, lift.
  destruct (baseFlowRate unit rate z) as [b|e]; [|reflexivity].
  now rewrite pressureConverted_reference.
Qed.

(** A blower pressure of 4 Pa is the reference of the conversion: with
    it the batch returns, raises and writes exactly what it does with the
    blower pressure left unset. *)
Theorem reference_pressure_changes_nothing (rate : option R) (unit : bool)
  (w : log) :
  main (Some 4) hb_hive HBZones rate unit w
  = main None hb_hive HBZones rate unit w
  /\ forall z : HBZone,
       standardFlowRate (Some 4) unit rate z = standardFlowRate None unit rate z.
Proof.
  split.
  - unfold main; generalize (@emptyOutputs Geometry), w.
    induction zones as [|z zs IH]; intros o w0; [reflexivity|].
    cbn [for_each]; unfold bind; rewrite zoneBody_reference.
    destruct (zoneBody None unit rate z o w0) as [[o'|e] w1];
      [apply IH | reflexivity].
  - intros z; unfold standardFlowRate.
    destruct (baseFlowRate unit rate z) as [b|e]; [|reflexivity].
    apply pressureConverted_reference.
Qed.

(** With a rate that is not negative and zones whose areas are not
    negative and whose volume is positive, no intensity that the batch
    returns is negative. *)
Theorem intensities_nonnegative (r : R) (unit : bool) (w w' : log)
  (out : Outputs Geometry) :
  main blowerPressure hb_hive HBZones (Some r) unit w = (Ok out, w') ->
  0 <= r ->
  Forall admittedZone zones ->
  Forall (Rle 0) (infPerAreaFacade out) /\ Forall (Rle 0) (ventPerAreaFloor out).
Proof.
  intros H Hr Hz; apply main_returned in H as (Hd & -> & _).
  cbn [infPerAreaFacade ventPerAreaFloor batchOutputs].
  rewrite !Forall_map, !Forall_forall; rewrite Forall_forall in Hd, Hz.
  split; intros z Hin; destruct (Hd z Hin) as [f Hf];
    pose proof (standardFlowRate_nonnegative _ _ _ _ _ Hf Hr (Hz z Hin)) as Hf0;
    destruct (Hz z Hin) as (Hea & Hfa & _);
    unfold zoneFacade, zoneFloor; rewrite (flowOr0_defined _ _ _ _ _ Hf);
    now apply quotientOr0_nonnegative.
Qed.

(** The geometry that the batch returns depends on the zones only: two
    runs on the same zones that both return, whatever their rates, units
    and blower pressures, return the same [allExposed] and [allFloors]. *)
Theorem geometry_independent_of_flow (bp' : option R)
  (rate rate' : option R) (unit unit' : bool) (w1 w1' w2 w2' : log)
  (out1 out2 : Outputs Geometry) :
  main blowerPressure hb_hive HBZones rate unit w1 = (Ok out1, w1') ->
  main bp' hb_hive HBZones rate' unit' w2 = (Ok out2, w2') ->
  allExposed out1 = allExposed out2 /\ allFloors out1 = allFloors out2.
Proof.
  intros H1 H2.
  apply main_returned in H1 as (_ & -> & _).
  apply main_returned in H2 as (_ & -> & _).
  split; reflexivity.
Qed.

End Intensities.

(** ** The report *)

Section Report.

Context {Geometry : Type} {HBObject : Type}.

Local Abbreviation HBZone := (HBZone Geometry).

Lemma filter_flat_map {A B} (keep : B -> bool) (g : A -> list B) (l : list A) :
  filter keep (flat_map g l) = flat_map (fun x => filter keep (g x)) l.
Proof.
  induction l as [|x l IH]; [reflexivity|].
  cbn [flat_map]; now rewrite filter_app, IH.
Qed.

Lemma length_flat_map_filter {A B} (g : A -> list B) (keep : A -> bool)
  (l : list A) :
  (forall x, List.length (g x) = if keep x then 1%nat else 0%nat) ->
  List.length (flat_map g l) = List.length (filter keep l).
Proof.
  intros Hg; induction l as [|x l IH]; [reflexivity|].
  cbn [flat_map filter]; rewrite length_app, Hg, IH.
  now destruct (keep x).
Qed.

Lemma warnings_differ : String.eqb warning_floor warning_facade = false.
Proof. reflexivity. Qed.

Lemma flow_line_of_zone (bp : option R) (unit : bool) (rate : option R)
  (z : HBZone) :
  filter isFlowLine (zoneLog bp unit rate z)
  = [PrintFlowRate (name z) (flowOr0 bp unit rate z)].
Proof.
  unfold zoneLog, warningsOf.
  destruct (noArea (getExposedArea z)), (noArea (getFloorArea z)); reflexivity.
Qed.

Lemma facade_messages_of_zone (bp : option R) (unit : bool) (rate : option R)
  (z : HBZone) :
  List.length (filter (isRuntimeMessage warning_facade) (zoneLog bp unit rate z))
  = if noArea (getExposedArea z) then 1%nat else 0%nat.
Proof.
  unfold zoneLog, warningsOf.
  destruct (noArea (getExposedArea z)), (noArea (getFloorArea z));
    cbn [filter app isRuntimeMessage];
    rewrite ?String.eqb_refl, ?warnings_differ; reflexivity.
Qed.

Lemma floor_messages_of_zone (bp : option R) (unit : bool) (rate : option R)
  (z : HBZone) :
  List.length (filter (isRuntimeMessage warning_floor) (zoneLog bp unit rate z))
  = if noArea (getFloorArea z) then 1%nat else 0%nat.
Proof.
  assert (Hd : String.eqb warning_facade warning_floor = false)
    by (rewrite String.eqb_sym; apply warnings_differ).
  unfold zoneLog, warningsOf.
  destruct (noArea (getExposedArea z)), (noArea (getFloorArea z));
    cbn [filter app isRuntimeMessage];
    rewrite ?String.eqb_refl, ?Hd; reflexivity.
Qed.

(** When the batch returns, it has written one flow-rate line per zone,
    in the order of the zones, one facade warning per zone without exposed
    area and one floor warning per zone without floor area. *)
Theorem report_accounts_for_zones (bp : option R)
  (hb_hive : hb_Hive Geometry HBObject) (HBZones : list (option HBObject))
  (rate : option R) (unit : bool) (w w' : log) (out : Outputs Geometry) :
  main bp hb_hive HBZones rate unit w = (Ok out, w') ->
  let zones := visualizeFromHoneybeeHive hb_hive HBZones in
  filter isFlowLine w'
  = filter isFlowLine w
    ++ map (fun z => PrintFlowRate (name z) (flowOr0 bp unit rate z)) zones
  /\ List.length (filter (isRuntimeMessage warning_facade) w')
     = (List.length (filter (isRuntimeMessage warning_facade) w)
        + List.length (filter (fun z => noArea (getExposedArea z)) zones))%nat
  /\ List.length (filter (isRuntimeMessage warning_floor) w')
     = (List.length (filter (isRuntimeMessage warning_floor) w)
        + List.length (filter (fun z => noArea (getFloorArea z)) zones))%nat.
Proof.
  intros H; cbv zeta; apply main_returned in H as (_ & _ & ->).
  rewrite !filter_app, !length_app, !filter_flat_map.
  repeat split; f_equal.
  - induction (visualizeFromHoneybeeHive hb_hive HBZones) as [|z zs IH];
      [reflexivity|].
    cbn [flat_map map]; now rewrite flow_line_of_zone, IH.
  - apply length_flat_map_filter; intros z; apply facade_messages_of_zone.
  - apply length_flat_map_filter; intros z; apply floor_messages_of_zone.
Qed.

End Report.

(** ** The Honeybee check *)

Section HoneybeeCheckFacts.

Context {Geometry : Type} {HBObject : Type}.

Local Abbreviation Sticky := (Sticky Geometry HBObject).

(** Runs the check through every outcome of the host's answers. *)
Ltac check_cases sticky w :=
  unfold honeybeeCheck, try_except, bind, lift, ret, emit;
  destruct (has_key sticky "honeybee_release"); cbn [negb];
  [ destruct (sticky_honeybee_release sticky) as [release|?];
    [ destruct (isCompatible release w) as [[[|]|?] ?w];
      [ destruct (isInputMissing release _) as [[[|]|?] ?w];
        [ destruct (sticky_honeybee_Hive sticky) as [hive|?];
          [ destruct (hive _) as [[?h|?] ?w] |]
        | destruct (sticky_honeybee_Hive sticky) as [hive|?];
          [ destruct (hive _) as [[?h|?] ?w] |]
        | ]
      | destruct (isInputMissing release _) as [[[|]|?] ?w];
        [ destruct (sticky_honeybee_Hive sticky) as [hive|?];
          [ destruct (hive _) as [[?h|?] ?w] |]
        | destruct (sticky_honeybee_Hive sticky) as [hive|?];
          [ destruct (hive _) as [[?h|?] ?w] |]
        | ]
      | ]
    | ]
  | ].

(** The Honeybee check never raises, whatever the host's entries do.
    When it leaves [initCheck] true, [hb_hive] is bound; when [hb_hive] is
    not bound, [initCheck] is false and the last thing written is a warning
    of the check; and when [initCheck] is false the entry code that follows
    sets no output and writes nothing. *)
Theorem honeybeeCheck_never_raises (sticky : Sticky) (w : log) :
  exists initCheck hb_hive w',
    honeybeeCheck sticky w = (Ok (initCheck, hb_hive), w')
    /\ (initCheck = true -> exists hive, hb_hive = Some hive)
    /\ (hb_hive = None ->
        initCheck = false
        /\ exists w1 msg,
             w' = w1 ++ [AddRuntimeMessage Warning msg]
             /\ (msg = msg_letHoneybeeFly \/ msg = warning_newerVersion))
    /\ (initCheck = false ->
        forall (hive : hb_Hive Geometry HBObject) (inp : Inputs HBObject),
          component initCheck hive inp w' = (Ok None, w')).
Proof.
  assert (Hoff : forall (hive : hb_Hive Geometry HBObject)
                        (inp : Inputs HBObject) w',
             component false hive inp w' = (Ok None, w')).
  { intros hive inp w'; apply component_unguarded; apply andb_false_r. }
  check_cases sticky w;
    eexists; eexists; eexists; (split; [reflexivity|]);
    (split; [intros Hic; first [discriminate Hic | eexists; reflexivity]|]);
    (split; [intros Hh; first [discriminate Hh
                              | split; [reflexivity|];
                                eexists; eexists; split;
                                [ first [reflexivity
                                        | rewrite app_assoc; reflexivity]
                                | first [left; reflexivity | right; reflexivity]]]
            |]);
    intros Hic; first [discriminate Hic | intros; apply Hoff].
Qed.

(** The check passes exactly when the release is there, accepts the
    component ([isCompatible] true, [isInputMissing] false) and the hive
    class makes a hive, nothing raising on the way; [hb_hive] is then that
    hive and the check itself has written nothing. *)
Theorem honeybeeCheck_passes_iff (sticky : Sticky) (w w' : log)
  (hb_hive : option (hb_Hive Geometry HBObject)) :
  honeybeeCheck sticky w = (Ok (true, hb_hive), w')
  <-> has_key sticky "honeybee_release" = true
      /\ exists release hive h w1 w2,
           sticky_honeybee_release sticky = Ok release
           /\ isCompatible release w = (Ok true, w1)
           /\ isInputMissing release w1 = (Ok false, w2)
           /\ sticky_honeybee_Hive sticky = Ok hive
           /\ hive w2 = (Ok h, w')
           /\ hb_hive = Some h.
Proof.
  split.
  - unfold honeybeeCheck, try_except, bind, lift, ret, emit.
    destruct (has_key sticky "honeybee_release"); cbn [negb]; [|discriminate].
    destruct (sticky_honeybee_release sticky) as [release|e]; [|discriminate].
    destruct (isCompatible release w) as [[c|e] w1] eqn:Hc; [|discriminate].
    destruct (isInputMissing release w1) as [[m|e] w2] eqn:Hm; [|discriminate].
    destruct (sticky_honeybee_Hive sticky) as [hive|e]; [|discriminate].
    destruct (hive w2) as [[h|e] w3] eqn:Hh; [|discriminate].
    destruct c, m; cbn; intros [= <- <-]; split; try reflexivity.
    exists release, hive, h, w1, w2; repeat split; assumption.
  - intros (Hk & release & hive & h & w1 & w2 & Hr & Hc & Hm & Hv & Hh & ->).
    unfold honeybeeCheck, try_except, bind, lift, ret.
    rewrite Hk, Hr; cbn [negb]; now rewrite Hc, Hm, Hv, Hh.
Qed.

End HoneybeeCheckFacts.

(** ** The further properties on the example data *)

Lemma negative_pressure_run :
  main (Some (-50)) (hiveOf [exampleZone]) [Some 0%nat] (Some 1) true []
  = (Raise ValueError, []).
Proof.
  apply (main_raises (Some (-50)) (hiveOf [exampleZone]) [Some 0%nat]
           (Some 1) true [] [] exampleZone ValueError []).
  - reflexivity.
  - constructor.
  - now apply (negative_pressure_raises true exampleZone (1 * 100 / 3600)).
Qed.

Lemma exampleZone_run (r : R) :
  main None (hiveOf [exampleZone]) [Some 0%nat] (Some r) true []
  = (Ok (batchOutputs None true (Some r) [exampleZone]),
     [] ++ flat_map (zoneLog None true (Some r)) [exampleZone]).
Proof. apply exampleZone_alone_run; [exact I | now left]. Qed.

Lemma main_exception_kinds_witness :
  main (Some (-50)) (hiveOf [exampleZone]) [Some 0%nat] (Some 1) true []
  = (Raise ValueError, [])
  /\ ((ValueError = TypeError
       /\ (Some 1 = None
           \/ (true = false
               /\ exists z, In z (visualizeFromHoneybeeHive
                                    (hiveOf [exampleZone]) [Some 0%nat])
                            /\ getExposedArea z = None)))
      \/ (exists p z b,
             Some (-50) = Some p /\ p <> 0
             /\ In z (visualizeFromHoneybeeHive
                        (hiveOf [exampleZone]) [Some 0%nat])
             /\ baseFlowRate true (Some 1) z = Ok b
             /\ pressureConverted (Some (-50)) b = Raise ValueError)).
Proof.
  split; [exact negative_pressure_run|].
  exact (proj1 (main_exception_kinds _ _ _ _ _ _ _ _ negative_pressure_run)).
Defined.


Lemma intensities_nonnegative_witness :
  main None (hiveOf [exampleZone]) [Some 0%nat] (Some 1) true []
  = (Ok (batchOutputs None true (Some 1) [exampleZone]),
     [] ++ flat_map (zoneLog None true (Some 1)) [exampleZone])
  /\ 0 <= 1
  /\ Forall admittedZone [exampleZone]
  /\ Forall (Rle 0)
       (infPerAreaFacade (batchOutputs None true (Some 1) [exampleZone])).
Proof.
  assert (Hr : 0 <= 1) by lra.
  assert (Hz : Forall admittedZone [exampleZone]).
  { apply Forall_cons; [|apply Forall_nil]. unfold admittedZone; simpl; lra. }
  split; [exact (exampleZone_run 1)|]. split; [exact Hr|]. split; [exact Hz|].
  exact (proj1 (intensities_nonnegative None (hiveOf [exampleZone])
                  [Some 0%nat] 1 true [] _ _ (exampleZone_run 1) Hr Hz)).
Defined.

Lemma geometry_independent_of_flow_witness :
  main None (hiveOf [exampleZone]) [Some 0%nat] (Some 1) true []
  = (Ok (batchOutputs None true (Some 1) [exampleZone]),
     [] ++ flat_map (zoneLog None true (Some 1)) [exampleZone])
  /\ main None (hiveOf [exampleZone]) [Some 0%nat] (Some 3) true []
     = (Ok (batchOutputs None true (Some 3) [exampleZone]),
        [] ++ flat_map (zoneLog None true (Some 3)) [exampleZone])
  /\ allExposed (batchOutputs None true (Some 1) [exampleZone])
     = allExposed (batchOutputs None true (Some 3) [exampleZone]).
Proof.
  split; [exact (exampleZone_run 1)|]. split; [exact (exampleZone_run 3)|].
  exact (proj1 (geometry_independent_of_flow None (hiveOf [exampleZone])
                  [Some 0%nat] None (Some 1) (Some 3) true true [] _ [] _ _ _
                  (exampleZone_run 1) (exampleZone_run 3))).
Defined.

Lemma report_accounts_for_zones_witness :
  main None (hiveOf [exampleZone]) [Some 0%nat] (Some 1) true []
  = (Ok (batchOutputs None true (Some 1) [exampleZone]),
     [] ++ flat_map (zoneLog None true (Some 1)) [exampleZone])
  /\ filter isFlowLine ([] ++ flat_map (zoneLog None true (Some 1)) [exampleZone])
     = [PrintFlowRate "zone_0" (flowOr0 None true (Some 1) exampleZone)].
Proof.
  split; [exact (exampleZone_run 1)|].
  exact (proj1 (report_accounts_for_zones None (hiveOf [exampleZone])
                  [Some 0%nat] (Some 1) true [] _ _ (exampleZone_run 1))).
Defined.

Lemma honeybeeCheck_passes_iff_witness :
  honeybeeCheck (flyingSticky (hiveOf [exampleZone])) []
  = (Ok (true, Some (hiveOf [exampleZone])), []).
Proof.
  apply (proj2 (honeybeeCheck_passes_iff (flyingSticky (hiveOf [exampleZone]))
                  [] [] (Some (hiveOf [exampleZone])))).
  split; [reflexivity|].
  exists {| isCompatible := ret true; isInputMissing := ret false |},
    (ret (hiveOf [exampleZone])), (hiveOf [exampleZone]), [], [].
  repeat split.
Defined.
